(** * sbm: System Boot Manager for the i.MX21 iROM boot monitor

    A shallow embedding of [sbm.c] and the verification of its protocol
    engine: the packed wire packet and its byte-order macro, the
    command/response exchanges ([imx_sync], [imx_set_register],
    [imx_set_baud], [imx_setup_system], [imx_download], [imx_run]) and the
    command loop of [main].

    Unsigned 32-bit C values are integers of [Z] kept in [0, 2^32) by
    [u32]; the serial port is a [world] holding the responses still to be
    read and the chronological log of what the program did to the port;
    [printf] output is a second log of structured diagnostics. *)

From Stdlib Require Import ZArith List Ascii String Bool Lia.
Import ListNotations.
Local Open Scope Z_scope.

(** ** Constants of the source *)

Definition DEFAULT_PORT : string := "/dev/ttyUSB0".
Definition DEFAULT_HIGHSPEED : Z := 921600.
Definition DEFAULT_TERMBAUD : Z := 230400.
Definition CHUNK_SIZE : Z := 4096.

Definition IMX_SYNC : Z := 0x0505.
Definition IMX_SREG : Z := 0x0202.
Definition IMX_DWNL : Z := 0x0404.

(** ** Machine integers *)

(** [unsigned int] arithmetic wraps modulo 2^32, [unsigned char] modulo 2^8. *)
Definition u32 (z : Z) : Z := z mod 2 ^ 32.
Definition u8 (z : Z) : Z := z mod 2 ^ 8.

(** The little-endian variant of the macro ([IS_BIG_ENDIAN] is not defined). *)
Definition SWAPDWORD (d : Z) : Z :=
  Z.lor (Z.lor (Z.lor (Z.shiftl (Z.land d 0xff) 24)
                      (Z.shiftl (Z.land d 0xff00) 8))
               (Z.shiftr (Z.land d 0xff0000) 8))
        (Z.shiftr (Z.land d 0xff000000) 24).

(** ** The wire packet *)

(** [struct imx_packet], packed: the fields hold what the code stores in
    them, that is the already swapped words. *)
Record imx_packet : Type := mk_packet {
  pckt_header  : Z;   (* unsigned short *)
  pckt_address : Z;   (* unsigned int   *)
  pckt_type    : Z;   (* unsigned char  *)
  pckt_length  : Z;   (* unsigned int   *)
  pckt_data    : Z;   (* unsigned int   *)
  pckt_end     : Z    (* unsigned char  *)
}.

(** Byte [k] of the in-memory representation of an integer on the
    little-endian host. *)
Definition byte_at (z : Z) (k : Z) : Z := Z.land (Z.shiftr z (8 * k)) 0xff.

Definition mem16 (z : Z) : list Z := [byte_at z 0; byte_at z 1].
Definition mem32 (z : Z) : list Z :=
  [byte_at z 0; byte_at z 1; byte_at z 2; byte_at z 3].

(** Most significant byte first: the order the iROM expects on the wire. *)
Definition be32 (z : Z) : list Z :=
  [byte_at z 3; byte_at z 2; byte_at z 1; byte_at z 0].

(** [write(fd,&pckt,sizeof(pckt))] sends the memory image of the struct:
    no padding, fields in declaration order. *)
Definition packet_bytes (p : imx_packet) : list Z :=
  mem16 (pckt_header p) ++ mem32 (pckt_address p) ++ [byte_at (pckt_type p) 0]
  ++ mem32 (pckt_length p) ++ mem32 (pckt_data p) ++ [byte_at (pckt_end p) 0].

(** ** The serial port and the console *)

(** Outcome of one [read(fd,&word,4)]: the four bytes as the host word they
    are stored in, or anything but four bytes (the port is opened with
    VMIN=0, VTIME=1, so a read gives up after a tenth of a second). *)
Inductive read_result : Type :=
| Got4 (response : Z)
| ShortRead.

Inductive wire_event : Type :=
| Sent (bytes : list Z)           (* write(fd, buf, n)      *)
| Read4 (r : read_result)         (* read(fd, &word, 4)     *)
| SetBaud (baud : Z).             (* set_baud(fd, baud)     *)

(** One constructor per [printf] (or [perror]) of the source, with its
    arguments. *)
Inductive message : Type :=
| Synchronizing
| Ok
| FailedIllegalResponse (response : Z)
| FailedTimeout
| WritingRegister (value len addr : Z)
| IllegalRegisterSize
| Ignored
| FailedIllegalResponse2 (response_b response_c : Z)
| ChangingBaud (baud : Z)
| BaudDone
| InitializingSDRAM
| SDRAMInitialized
| UnableToOpenImage (file : string)
| FailedDownloading (file : string)
| Downloading (file : string) (addr size : Z)
| BlockTimedOut (i to_write at_ : Z)
| BlockIllegalResponse (i to_write at_ response_b : Z)
| Progress (filled i size percent : Z)
| DownloadComplete
| Calling (addr : Z)
| Usage
| PortExpected
| OpenPortFailed (port : string)
| UnableToOpenPort
| NotEnoughParameters
| UnableToSync
| UnableToSetRegister (addr size value : Z)
| UnableToDownload (file : string) (addr : Z)
| UnableToSetup
| UnableToChangeBaud
| NoAddressSpecified
| UnableToRun (addr : Z)
| InteractiveTerminal
| UnableToStartTerminal
| UnknownCommand (cmd : string).

Record world : Type := mk_world {
  inbound : list read_result;     (* what the next reads will return *)
  wire    : list wire_event;      (* port activity, oldest first     *)
  console : list message          (* standard output, oldest first   *)
}.

(** ** A state monad over the world *)

Definition IO (A : Type) : Type := world -> A * world.

Definition ret {A : Type} (a : A) : IO A := fun w => (a, w).

Definition bind {A B : Type} (m : IO A) (k : A -> IO B) : IO B :=
  fun w => let (a, w') := m w in k a w'.

Notation "x <- m ;; k" := (bind m (fun x => k))
  (at level 61, m at next level, right associativity).
Notation "m ;; k" := (bind m (fun _ => k))
  (at level 61, right associativity).

Definition printf (m : message) : IO unit :=
  fun w => (tt, mk_world (inbound w) (wire w) (console w ++ [m])).

Definition write (bytes : list Z) : IO unit :=
  fun w => (tt, mk_world (inbound w) (wire w ++ [Sent bytes]) (console w)).

(** A read past the end of the scripted responses times out. *)
Definition read4 : IO read_result :=
  fun w =>
    match inbound w with
    | [] => (ShortRead, mk_world [] (wire w ++ [Read4 ShortRead]) (console w))
    | r :: rest => (r, mk_world rest (wire w ++ [Read4 r]) (console w))
    end.

Definition set_baud (baud : Z) : IO unit :=
  fun w => (tt, mk_world (inbound w) (wire w ++ [SetBaud baud]) (console w)).

(** ** Protocol operations *)

Definition sync_packet : imx_packet := mk_packet IMX_SYNC 0 0 0 0 0.

Definition imx_sync : IO Z :=
  printf Synchronizing ;;
  let pckt := sync_packet in
  write (packet_bytes pckt) ;;
  r <- read4 ;;
  match r with
  | Got4 response =>
      if response =? 0xf0f0f0f0
      then printf Ok ;; ret 0
      else printf (FailedIllegalResponse response) ;; ret (-1)
  | ShortRead => printf FailedTimeout ;; ret (-1)
  end.

Definition sreg_packet (addr len value : Z) : imx_packet :=
  mk_packet IMX_SREG (SWAPDWORD addr) (u8 len) 0 (SWAPDWORD value) 0.

Definition imx_set_register (addr len value ignore : Z) : IO Z :=
  printf (WritingRegister value len addr) ;;
  if negb (len =? 8) && negb (len =? 16) && negb (len =? 32)
  then printf IllegalRegisterSize ;; ret (-1)
  else
    let pckt := sreg_packet addr len value in
    write (packet_bytes pckt) ;;
    let timed_out : IO Z :=
      if negb (ignore =? 0)
      then printf Ignored ;; ret 0
      else printf FailedTimeout ;; ret (-1) in
    rb <- read4 ;;
    match rb with
    | ShortRead => timed_out
    | Got4 response_b =>
        rc <- read4 ;;
        match rc with
        | ShortRead => timed_out
        | Got4 response_c =>
            if (response_b =? 0x56787856) && (response_c =? 0x128a8a12)
            then printf Ok ;; ret 0
            else if negb (ignore =? 0)
                 then printf Ignored ;; ret 0
                 else printf (FailedIllegalResponse2 response_b response_c) ;;
                      ret (-1)
        end
    end.

Definition imx_set_baud (baud : Z) : IO Z :=
  printf (ChangingBaud baud) ;;
  imx_set_register 0x1000A0A4 32 (u32 (baud / 100 - 1)) 0 ;;
  imx_set_register 0x1000A0A8 32 (10000 - 1) 1 ;;
  set_baud baud ;;
  printf BaudDone ;;
  ret 0.

(** [for(i=0; i<8; i++) imx_set_register(fd, 0xc0000000, 32, 0, 0);] *)
Fixpoint refresh_loop (n : nat) : IO unit :=
  match n with
  | O => ret tt
  | S n' => imx_set_register 0xc0000000 32 0x00000000 0 ;; refresh_loop n'
  end.

Definition imx_setup_system : IO Z :=
  printf InitializingSDRAM ;;
  imx_set_register 0x10000000 32 0x00040304 0 ;;
  imx_set_register 0x10020000 32 0x00000000 0 ;;
  imx_set_register 0x10000004 32 0xfffbfcfb 0 ;;
  imx_set_register 0x10020004 32 0xffffffff 0 ;;
  imx_set_register 0xdf001008 32 0x00002000 0 ;;
  imx_set_register 0xdf00100c 32 0x11118501 0 ;;
  imx_set_register 0x10015520 32 0x00000000 0 ;;
  imx_set_register 0x10015538 32 0x00000000 0 ;;
  imx_set_register 0x1003f300 32 0x00123456 0 ;;
  imx_set_register 0xdf000000 32 0x92129399 0 ;;
  imx_set_register 0xc0200000 32 0x00000000 0 ;;
  imx_set_register 0xdf000000 32 0xa2120300 0 ;;
  refresh_loop 8 ;;
  imx_set_register 0xdf000000 32 0xb2120300 0 ;;
  imx_set_register 0xc0119800 32 0x00000000 0 ;;
  imx_set_register 0xdf000000 32 0x8212f339 0 ;;
  printf SDRAMInitialized ;;
  ret 0.

Definition dwnl_packet (addr i to_write : Z) : imx_packet :=
  mk_packet IMX_DWNL (SWAPDWORD (u32 (addr + i))) 0 (SWAPDWORD to_write) 0 0.

(** The [for(i=0; i<size;)] loop of [imx_download]. [bin] is what is left
    of the file after the current position; [fuel] bounds the number of
    iterations and [None] is returned when it runs out. *)
Fixpoint download_loop (fuel : nat) (bin : list Z) (addr size i : Z)
  : IO (option Z) :=
  if i <? size then
    match fuel with
    | O => ret None
    | S fuel' =>
        let to_write := size - i in
        let to_write := if to_write >? CHUNK_SIZE then CHUNK_SIZE else to_write in
        let pckt := dwnl_packet addr i to_write in
        write (packet_bytes pckt) ;;
        r <- read4 ;;
        match r with
        | ShortRead =>
            printf (BlockTimedOut i to_write (u32 (addr + i))) ;;
            ret (Some (-1))
        | Got4 response_b =>
            if negb (response_b =? 0x56787856)
            then printf (BlockIllegalResponse i to_write (u32 (addr + i))
                                              response_b) ;;
                 ret (Some (-1))
            else
              let data := firstn (Z.to_nat to_write) bin in
              write data ;;
              let i := i + to_write in
              printf (Progress (u32 (i * 30) / size) i size
                               (u32 (i * 100) / size)) ;;
              download_loop fuel' (skipn (Z.to_nat to_write) bin) addr size i
        end
    end
  else printf DownloadComplete ;; ret (Some 0).

Definition run_packet (addr : Z) : imx_packet :=
  mk_packet IMX_DWNL (SWAPDWORD addr) 0 0 0 0xaa.

Definition imx_run (addr : Z) : IO Z :=
  printf (Calling addr) ;;
  let pckt := run_packet addr in
  write (packet_bytes pckt) ;;
  rb <- read4 ;;
  match rb with
  | ShortRead => printf FailedTimeout ;; ret (-1)
  | Got4 response_b =>
      if response_b =? 0x56787856
      then
        let pckt := mk_packet IMX_SYNC 0 0 0 0 0 in
        write (packet_bytes pckt) ;;
        rd <- read4 ;;
        match rd with
        | ShortRead => printf FailedTimeout ;; ret (-1)
        | Got4 response_d =>
            if (response_d =? 0x08888888) || (response_d =? 0x88888888)
            then printf Ok ;; ret 0
            else printf (FailedIllegalResponse response_d) ;; ret (-1)
        end
      else printf (FailedIllegalResponse response_b) ;; ret (-1)
  end.

(** ** The command loop of [main] *)

(** [synced] and [entry], the two locals of [main] that outlive a command. *)
Record session : Type := mk_session {
  synced : bool;
  entry  : Z
}.

(** How [main] ends: it returns an exit code, or it has entered the
    interactive terminal, whose [while(1)] never returns. [OutOfFuel] is
    the bounded download loop giving up (shown below never to happen). *)
Inductive status : Type :=
| Returned (code : Z)
| Relaying
| OutOfFuel.

Definition result : Type := (status * session)%type.

Section Main.

(** The environment of the process: the files that [fopen(file,"rb")]
    can open with their content, libc's [strtoul(s,NULL,0)], and the
    ports that [open] can open. *)
Variable fopen : string -> option (list Z).
Variable strtoul : string -> Z.
Variable port_opens : string -> bool.

Definition imx_download (file : string) (addr : Z) : IO (option Z) :=
  match fopen file with
  | None =>
      printf (UnableToOpenImage file) ;;
      printf (FailedDownloading file) ;;
      ret (Some (-1))
  | Some bin =>
      let size := u32 (Z.of_nat (List.length bin)) in
      printf (Downloading file addr size) ;;
      download_loop (Z.to_nat size) bin addr size 0
  end.

(** [break] leaves the loop; [main] then closes the port and returns 0. *)
Definition break (s : session) : IO result := ret (Returned 0, s).

(** The block
    [if(!synced) { if(imx_sync(port)) { printf(...); break; } synced = 1; }]
    that opens the set, download, setup and baud commands. *)
Definition sync_first (s : session) (k : session -> IO result) : IO result :=
  if negb (synced s) then
    r <- imx_sync ;;
    if negb (r =? 0)
    then printf UnableToSync ;; break s
    else k (mk_session true (entry s))
  else k s.

Definition cmd_set (a1 a2 a3 : string) (s : session)
           (k : session -> IO result) : IO result :=
  sync_first s (fun s =>
    let addr := u32 (strtoul a1) in
    let size := u32 (strtoul a2) in
    let value := u32 (strtoul a3) in
    r <- imx_set_register addr size value 0 ;;
    if negb (r =? 0)
    then printf (UnableToSetRegister addr size value) ;; break s
    else k s).

Definition cmd_download (file a2 : string) (s : session)
           (k : session -> IO result) : IO result :=
  sync_first s (fun s =>
    let addr := u32 (strtoul a2) in
    o <- imx_download file addr ;;
    match o with
    | None => ret (OutOfFuel, s)
    | Some r =>
        if negb (r =? 0)
        then printf (UnableToDownload file addr) ;; break s
        else
          let s := mk_session (synced s) addr in     (* entry = addr *)
          k s
    end).

Definition cmd_sync (s : session) (k : session -> IO result) : IO result :=
  r <- imx_sync ;;
  if negb (r =? 0)
  then printf UnableToSync ;; break s
  else k (mk_session true (entry s)).

Definition cmd_setup (s : session) (k : session -> IO result) : IO result :=
  sync_first s (fun s =>
    r <- imx_setup_system ;;
    if negb (r =? 0)
    then printf UnableToSetup ;; break s
    else k s).

Definition cmd_baud (baud : Z) (s : session) (k : session -> IO result)
  : IO result :=
  r <- imx_set_baud baud ;;
  if negb (r =? 0)
  then printf UnableToChangeBaud ;; break s
  else k s.

(** The part of the run command after its address has been resolved. *)
Definition cmd_run (addr : Z) (s : session) (k : session -> IO result)
  : IO result :=
  if addr =? 0
  then printf NoAddressSpecified ;; break s
  else
    r <- imx_run addr ;;
    if negb (r =? 0)
    then printf (UnableToRun addr) ;; break s
    else k s.

(** [terminal] announces itself and relays keystrokes for ever. *)
Definition cmd_terminal (baud : Z) (s : session) : IO result :=
  set_baud baud ;;
  printf InteractiveTerminal ;;
  ret (Relaying, s).

(** [while(i<argc)]: [args] is [argv] from index [i] on. *)
Fixpoint command_loop (args : list string) (s : session) : IO result :=
  match args with
  | [] => ret (Returned 0, s)
  | cmd :: rest =>
      if (cmd =? "set")%string then
        match rest with
        | a1 :: a2 :: a3 :: rest' => cmd_set a1 a2 a3 s (command_loop rest')
        | _ => printf NotEnoughParameters ;; break s
        end
      else if (cmd =? "download")%string then
        match rest with
        | a1 :: a2 :: rest' => cmd_download a1 a2 s (command_loop rest')
        | _ => printf NotEnoughParameters ;; break s
        end
      else if (cmd =? "sync")%string then
        cmd_sync s (command_loop rest)
      else if (cmd =? "setup")%string then
        cmd_setup s (command_loop rest)
      else if (cmd =? "baud")%string then
        sync_first s (fun s =>
          match rest with
          | [] => cmd_baud DEFAULT_HIGHSPEED s (command_loop rest)
          | a1 :: rest' =>
              let baud := u32 (strtoul a1) in
              if baud =? 0
              then cmd_baud DEFAULT_HIGHSPEED s (command_loop rest)
              else cmd_baud baud s (command_loop rest')
          end)
      else if (cmd =? "run")%string then
        match rest with
        | [] => cmd_run (entry s) s (command_loop rest)
        | a1 :: rest' =>
            let addr := u32 (strtoul a1) in
            if addr =? 0
            then cmd_run (entry s) s (command_loop rest)
            else cmd_run addr s (command_loop rest')
        end
      else if (cmd =? "terminal")%string then
        match rest with
        | [] => cmd_terminal DEFAULT_TERMBAUD s
        | a1 :: _ =>
            let baud := u32 (strtoul a1) in
            if baud =? 0
            then cmd_terminal DEFAULT_TERMBAUD s
            else cmd_terminal baud s
        end
      else printf (UnknownCommand cmd) ;; break s
  end.

Definition open_and_run (port_str : string) (args : list string)
  : IO result :=
  if negb (port_opens port_str)
  then printf (OpenPortFailed port_str) ;;
       printf UnableToOpenPort ;;
       ret (Returned (-1), mk_session false 0)
  else command_loop args (mk_session false 0).

(** [argv] is [prog :: args]. *)
Definition main (prog : string) (args : list string) : IO result :=
  match args with
  | [] => printf Usage ;; ret (Returned 0, mk_session false 0)
  | a1 :: rest =>
      if (a1 =? "-p")%string then
        match rest with
        | [] => printf PortExpected ;; ret (Returned (-1), mk_session false 0)
        | port_str :: rest' => open_and_run port_str rest'
        end
      else open_and_run DEFAULT_PORT args
  end.

End Main.

(** ** A concrete environment for examples *)

(** libc's [strtoul(s, NULL, 0)] on an LP64 host: optional white space and
    sign, base chosen by the prefix ([0x] hexadecimal, [0] octal, decimal
    otherwise), the longest run of digits, [ULONG_MAX] on overflow; no
    digits at all gives 0. *)
Module Libc.

Definition code (c : Ascii.ascii) : Z := Z.of_nat (Ascii.nat_of_ascii c).

Definition isspace (c : Ascii.ascii) : bool :=
  (code c =? 32) || ((9 <=? code c) && (code c <=? 13)).

Definition digit (c : Ascii.ascii) : option Z :=
  let n := code c in
  if (48 <=? n) && (n <=? 57) then Some (n - 48)
  else if (97 <=? n) && (n <=? 122) then Some (n - 87)
  else if (65 <=? n) && (n <=? 90) then Some (n - 55)
  else None.

Fixpoint skip_space (s : string) : string :=
  match s with
  | String c s' => if isspace c then skip_space s' else s
  | EmptyString => s
  end.

Fixpoint digits (base : Z) (s : string) (acc : Z) : Z :=
  match s with
  | EmptyString => acc
  | String c s' =>
      match digit c with
      | Some d => if d <? base then digits base s' (acc * base + d) else acc
      | None => acc
      end
  end.

Definition is_hex_digit (s : string) : bool :=
  match s with
  | String c _ => match digit c with Some d => d <? 16 | None => false end
  | EmptyString => false
  end.

Definition magnitude (s : string) : Z :=
  match s with
  | String "0"%char (String x s') =>
      if ((code x =? 120) || (code x =? 88)) && is_hex_digit s'
      then digits 16 s' 0
      else digits 8 (String x s') 0
  | _ => digits 10 s 0
  end.

Definition ULONG_MAX : Z := 2 ^ 64 - 1.

Definition strtoul (s : string) : Z :=
  match skip_space s with
  | String "-"%char s' => (- Z.min (magnitude s') ULONG_MAX) mod 2 ^ 64
  | String "+"%char s' => Z.min (magnitude s') ULONG_MAX
  | s' => Z.min (magnitude s') ULONG_MAX
  end.

End Libc.

(** A file system holding one image. *)
Definition one_file (name : string) (content : list Z)
  : string -> option (list Z) :=
  fun file => if (file =? name)%string then Some content else None.

Definition no_files : string -> option (list Z) := fun _ => None.

Definition any_port : string -> bool := fun _ => true.

(** A port on which nothing has happened yet and whose device will answer
    with [responses]. *)
Definition fresh (responses : list read_result) : world :=
  mk_world responses [] [].

(** ** Vocabulary of the specification *)

(** The SDRAM bring-up as a table of [(address, width, value, ignore)]:
    the arguments of the successive [imx_set_register] calls of
    [imx_setup_system], the refresh loop unrolled. *)
Definition SetupSequence : list (Z * Z * Z * Z) :=
  [ (0x10000000, 32, 0x00040304, 0); (0x10020000, 32, 0x00000000, 0);
    (0x10000004, 32, 0xfffbfcfb, 0); (0x10020004, 32, 0xffffffff, 0);
    (0xdf001008, 32, 0x00002000, 0); (0xdf00100c, 32, 0x11118501, 0);
    (0x10015520, 32, 0x00000000, 0); (0x10015538, 32, 0x00000000, 0);
    (0x1003f300, 32, 0x00123456, 0); (0xdf000000, 32, 0x92129399, 0);
    (0xc0200000, 32, 0x00000000, 0); (0xdf000000, 32, 0xa2120300, 0);
    (0xc0000000, 32, 0x00000000, 0); (0xc0000000, 32, 0x00000000, 0);
    (0xc0000000, 32, 0x00000000, 0); (0xc0000000, 32, 0x00000000, 0);
    (0xc0000000, 32, 0x00000000, 0); (0xc0000000, 32, 0x00000000, 0);
    (0xc0000000, 32, 0x00000000, 0); (0xc0000000, 32, 0x00000000, 0);
    (0xdf000000, 32, 0xb2120300, 0); (0xc0119800, 32, 0x00000000, 0);
    (0xdf000000, 32, 0x8212f339, 0) ].

(** Sequential replay of a table, the result of every write dropped. *)
Fixpoint replay (table : list (Z * Z * Z * Z)) : IO unit :=
  match table with
  | [] => ret tt
  | (addr, len, value, ignore) :: table' =>
      imx_set_register addr len value ignore ;; replay table'
  end.

(** The blocks of a transfer of [S] bytes, numbered from 0. *)
Definition block_count (S : Z) : nat :=
  Z.to_nat ((S + CHUNK_SIZE - 1) / CHUNK_SIZE).

Definition block_offset (k : nat) : Z := CHUNK_SIZE * Z.of_nat k.

Definition block_length (S : Z) (k : nat) : Z :=
  Z.min CHUNK_SIZE (S - block_offset k).

(** The sixteen bytes of a DOWNLOAD header as the device sees them. *)
Definition download_header (address length : Z) : list Z :=
  [0x04; 0x04] ++ be32 address ++ [0] ++ be32 length ++ be32 0 ++ [0].

(** What block [k] of [content], sent to [addr], puts on the port: the
    header, the read of its acknowledgment, then the payload. *)
Definition block_exchange (content : list Z) (addr : Z) (k : nat)
  : list wire_event :=
  let S := Z.of_nat (List.length content) in
  [ Sent (download_header (u32 (addr + block_offset k)) (block_length S k));
    Read4 (Got4 0x56787856);
    Sent (firstn (Z.to_nat (block_length S k))
                 (skipn (Z.to_nat (block_offset k)) content)) ].

(** The progress line printed after block [k]. *)
Definition block_progress (S : Z) (k : nat) : message :=
  let i := block_offset k + block_length S k in
  Progress (u32 (i * 30) / S) i S (u32 (i * 100) / S).

(** The result kinds of the specification that a wire exchange can end
    in, and how the program reports each: its return value and the last
    thing it prints. *)
Inductive outcome : Type :=
| Success
| Timeout
| ProtocolMismatch (observed : Z).

Definition code_of (o : outcome) : Z :=
  match o with
  | Success => 0
  | Timeout | ProtocolMismatch _ => -1
  end.

Definition message_of (o : outcome) : message :=
  match o with
  | Success => Ok
  | Timeout => FailedTimeout
  | ProtocolMismatch observed => FailedIllegalResponse observed
  end.

(** The response contract of sync as the specification words it: success
    iff the word is 0xf0f0f0f0, a short read is a timeout, any other word a
    mismatch carrying it. *)
Definition spec_sync (r : read_result) : outcome :=
  match r with
  | ShortRead => Timeout
  | Got4 v => if v =? 0xf0f0f0f0 then Success else ProtocolMismatch v
  end.

(** The second phase of run in the words of the specification. *)
Definition spec_run_handshake (r2 : read_result) : outcome :=
  match r2 with
  | ShortRead => Timeout
  | Got4 v =>
      if (v =? 0x08888888) || (v =? 0x88888888) then Success
      else ProtocolMismatch v
  end.

(** The outcome of the next read on a port. *)
Definition next_read (w : world) : read_result :=
  match inbound w with
  | [] => ShortRead
  | r :: _ => r
  end.

(** The outcome of the read after the next one. *)
Definition second_read (w : world) : read_result :=
  match tl (inbound w) with
  | [] => ShortRead
  | r :: _ => r
  end.

(** A computation that only ever adds to the two logs, everything it
    adds to the port log satisfying [P] and everything it prints [Q]. *)
Definition adds {A : Type} (P : wire_event -> Prop) (Q : message -> Prop)
           (m : IO A) : Prop :=
  forall w, exists t c,
    wire (snd (m w)) = wire w ++ t /\ console (snd (m w)) = console w ++ c
    /\ Forall P t /\ Forall Q c.

(** No constraint on what is logged. *)
Definition appends {A : Type} (m : IO A) : Prop :=
  adds (fun _ => True) (fun _ => True) m.

Definition is_read (e : wire_event) : bool :=
  match e with
  | Read4 _ => true
  | _ => false
  end.

(** A run of the command loop that does not end on exhausted fuel. *)
Definition returns (m : IO result) : Prop :=
  forall w, fst (fst (m w)) <> OutOfFuel.

(** A table with the ignore flag of every entry set. *)
Definition with_ignore (table : list (Z * Z * Z * Z)) : list (Z * Z * Z * Z) :=
  map (fun '(addr, len, value, _) => (addr, len, value, 1)) table.

(** ** The receive handler of the interactive terminal *)

(** Outcome of one [read(port,&buf,1)]: a byte, 0 (nothing arrived within
    the port's time-out) or an error. *)
Inductive byte_read : Type :=
| GotByte (buf : Z)
| NoData
| ReadFailed.

(** What [term_recv] does on standard output: [write(1,&buf,1)] or the
    read-error line. *)
Inductive screen_event : Type :=
| Echoed (buf : Z)
| ReadErrorReported.

(** [term_recv]: [while(len = read(port,&buf,1))], leaving on a read of
    length 0 and, after the diagnostic, on one that is not 1. [pending]
    scripts the reads to come, a read past its end finding nothing; the
    result is what was put on the screen and the reads left. *)
Fixpoint term_recv (pending : list byte_read)
  : list screen_event * list byte_read :=
  match pending with
  | [] => ([], [])
  | NoData :: rest => ([], rest)
  | ReadFailed :: rest => ([ReadErrorReported], rest)
  | GotByte buf :: rest =>
      let (screen, rest') := term_recv rest in
      (Echoed buf :: screen, rest')
  end.

(** The bytes at the head of a script of reads, up to the first read that
    does not deliver one. *)
Fixpoint leading_bytes (pending : list byte_read) : list Z :=
  match pending with
  | GotByte buf :: rest => buf :: leading_bytes rest
  | _ => []
  end.

(** ** More vocabulary *)

(** The buffers written to the port, in order. *)
Definition sent (log : list wire_event) : list (list Z) :=
  flat_map (fun e => match e with Sent bytes => [bytes] | _ => [] end) log.

(** The words read from the port, in order. *)
Definition reads (log : list wire_event) : list read_result :=
  flat_map (fun e => match e with Read4 r => [r] | _ => [] end) log.

Definition is_byte (b : Z) : Prop := 0 <= b < 256.

(** A port event that is a read or the write of one whole packet. *)
Definition packet_or_read (e : wire_event) : Prop :=
  match e with
  | Sent bytes => List.length bytes = 16%nat /\ Forall is_byte bytes
  | Read4 _ => True
  | SetBaud _ => False
  end.

(** The packet of a table entry. *)
Definition entry_packet (e : Z * Z * Z * Z) : list Z :=
  let '(addr, len, value, _) := e in packet_bytes (sreg_packet addr len value).

(** Payload [k] of an image cut into blocks. *)
Definition block_payload (content : list Z) (k : nat) : list Z :=
  firstn (Z.to_nat (block_length (Z.of_nat (List.length content)) k))
         (skipn (Z.to_nat (block_offset k)) content).

(** Between [w] and [w'] a SYNC packet was written and answered with
    0xf0f0f0f0. *)
Definition sync_acknowledged (w w' : world) : Prop :=
  exists t1 t2,
    wire w' =
      wire w ++ t1
      ++ [Sent (packet_bytes sync_packet); Read4 (Got4 0xf0f0f0f0)] ++ t2.

(** What a run of the command loop does to [synced]: it never clears it,
    and sets it only after an acknowledged SYNC. *)
Definition keeps_sync (s : session) (m : IO result) : Prop :=
  forall w,
    (synced s = true -> synced (snd (fst (m w))) = true)
    /\ (synced s = false -> synced (snd (fst (m w))) = true ->
        sync_acknowledged w (snd (m w))).

(** The number that a run of bytes spells, most significant byte first:
    how the device reads a 32-bit field off the wire. *)
Definition be_word (bytes : list Z) : Z :=
  fold_left (fun acc b => acc * 256 + b) bytes 0.

(** * Verification *)

Example strtoul_hex : Libc.strtoul "0xC0000000" = 0xC0000000.
Proof. reflexivity. Qed.

Example strtoul_dec : Libc.strtoul "921600" = 921600.
Proof. reflexivity. Qed.

Example strtoul_word : Libc.strtoul "download" = 0.
Proof. reflexivity. Qed.

(** ** The byte-order macro *)

Lemma ones8_testbit (k : Z) :
  Z.testbit (Z.ones 8) k = (0 <=? k) && (k <? 8).
Proof.
  destruct (Z.leb_spec 0 k) as [Hk | Hk]; simpl.
  - destruct (Z.ltb_spec k 8).
    + apply Z.ones_spec_low; lia.
    + apply Z.ones_spec_high; lia.
  - apply Z.testbit_neg_r; lia.
Qed.

Lemma shiftl_testbit (a n m : Z) :
  0 <= n -> Z.testbit (Z.shiftl a n) m = Z.testbit a (m - n).
Proof.
  intros Hn. destruct (Z.leb_spec 0 m).
  - apply Z.shiftl_spec; assumption.
  - rewrite !Z.testbit_neg_r by lia. reflexivity.
Qed.

(** Bit [n] of the swapped word, for any argument of the macro. *)
Lemma SWAPDWORD_testbit (d n : Z) :
  0 <= n ->
  Z.testbit (SWAPDWORD d) n =
    if n <? 8 then Z.testbit d (n + 24)
    else if n <? 16 then Z.testbit d (n + 8)
    else if n <? 24 then Z.testbit d (n - 8)
    else if n <? 32 then Z.testbit d (n - 24)
    else false.
Proof.
  intros Hn. unfold SWAPDWORD.
  change 0xff with (Z.ones 8).
  change 0xff00 with (Z.shiftl (Z.ones 8) 8).
  change 0xff0000 with (Z.shiftl (Z.ones 8) 16).
  change 0xff000000 with (Z.shiftl (Z.ones 8) 24).
  rewrite !Z.lor_spec, !Z.shiftr_spec, !shiftl_testbit, !Z.land_spec by lia.
  rewrite !shiftl_testbit by lia.
  rewrite !ones8_testbit.
  destruct (Z.ltb_spec n 8); [|destruct (Z.ltb_spec n 16);
    [|destruct (Z.ltb_spec n 24); [|destruct (Z.ltb_spec n 32)]]];
  repeat match goal with
         | |- context [?a <=? ?b] => destruct (Z.leb_spec a b); try lia
         | |- context [?a <? ?b] => destruct (Z.ltb_spec a b); try lia
         end;
  simpl; rewrite ?andb_true_r, ?andb_false_r, ?orb_false_r; simpl;
  try reflexivity.
Qed.

Lemma u32_testbit_high (d n : Z) :
  0 <= d < 2 ^ 32 -> 32 <= n -> Z.testbit d n = false.
Proof.
  intros Hd Hn. rewrite <- (Z.mod_small d (2 ^ 32)) by assumption.
  apply Z.mod_pow2_bits_high. lia.
Qed.

Lemma SWAPDWORD_involutive (d : Z) :
  0 <= d < 2 ^ 32 -> SWAPDWORD (SWAPDWORD d) = d.
Proof.
  intros Hd. apply Z.bits_inj'. intros n Hn.
  rewrite SWAPDWORD_testbit by assumption.
  destruct (Z.ltb_spec n 8); [|destruct (Z.ltb_spec n 16);
    [|destruct (Z.ltb_spec n 24); [|destruct (Z.ltb_spec n 32)]]];
  try (rewrite SWAPDWORD_testbit by lia;
       repeat match goal with
              | |- context [?a <? ?b] => destruct (Z.ltb_spec a b); try lia
              end;
       f_equal; lia).
  symmetry. apply u32_testbit_high; assumption.
Qed.

Lemma SWAPDWORD_range (d : Z) : 0 <= SWAPDWORD d < 2 ^ 32.
Proof.
  assert (E : SWAPDWORD d = SWAPDWORD d mod 2 ^ 32).
  { apply Z.bits_inj'. intros n Hn.
    destruct (Z.ltb_spec n 32).
    - rewrite Z.mod_pow2_bits_low by lia. reflexivity.
    - rewrite Z.mod_pow2_bits_high by lia.
      rewrite SWAPDWORD_testbit by assumption.
      repeat match goal with
             | |- context [?a <? ?b] => destruct (Z.ltb_spec a b); try lia
             end;
      try reflexivity. }
  rewrite E. apply Z.mod_pos_bound. lia.
Qed.

Lemma SWAPDWORD_0 : SWAPDWORD 0 = 0.
Proof. reflexivity. Qed.

(** The memory image of a swapped word is the word most significant byte
    first: this is what the swap is for. *)
Lemma byte_at_SWAPDWORD (d k : Z) :
  0 <= k <= 3 -> byte_at (SWAPDWORD d) k = byte_at d (3 - k).
Proof.
  intros Hk. unfold byte_at. change 0xff with (Z.ones 8).
  apply Z.bits_inj'. intros n Hn.
  rewrite !Z.land_spec, !Z.shiftr_spec, ones8_testbit by lia.
  destruct (Z.ltb_spec n 8); rewrite ?andb_false_r; [|reflexivity].
  rewrite andb_true_r.
  replace (0 <=? n) with true by (symmetry; apply Z.leb_le; lia).
  rewrite !andb_true_r.
  rewrite SWAPDWORD_testbit by lia.
  assert (k = 0 \/ k = 1 \/ k = 2 \/ k = 3) as [-> | [-> | [-> | ->]]] by lia;
  repeat match goal with
         | |- context [?a <? ?b] => destruct (Z.ltb_spec a b); try lia
         end;
  f_equal; lia.
Qed.

Lemma mem32_SWAPDWORD (d : Z) : mem32 (SWAPDWORD d) = be32 d.
Proof.
  unfold mem32, be32.
  rewrite !byte_at_SWAPDWORD by lia. reflexivity.
Qed.

Lemma byte_at_range (z k : Z) : 0 <= byte_at z k < 256.
Proof.
  unfold byte_at. change 0xff with (Z.ones 8).
  rewrite Z.land_ones by lia. apply Z.mod_pos_bound. lia.
Qed.

Lemma packet_bytes_length (p : imx_packet) :
  List.length (packet_bytes p) = 16%nat.
Proof. reflexivity. Qed.

Lemma sreg_packet_bytes (addr len value : Z) :
  packet_bytes (sreg_packet addr len value) =
    [0x02; 0x02] ++ be32 addr ++ [byte_at (u8 len) 0] ++ be32 0
    ++ be32 value ++ [0].
Proof.
  unfold packet_bytes, sreg_packet; simpl pckt_header; simpl pckt_address;
    simpl pckt_type; simpl pckt_length; simpl pckt_data; simpl pckt_end.
  rewrite !mem32_SWAPDWORD. reflexivity.
Qed.

Lemma dwnl_packet_bytes (addr i to_write : Z) :
  packet_bytes (dwnl_packet addr i to_write) =
    download_header (u32 (addr + i)) to_write.
Proof.
  unfold packet_bytes, dwnl_packet, download_header; simpl pckt_header;
    simpl pckt_address; simpl pckt_type; simpl pckt_length; simpl pckt_data;
    simpl pckt_end.
  rewrite !mem32_SWAPDWORD. reflexivity.
Qed.

Lemma run_packet_bytes (addr : Z) :
  packet_bytes (run_packet addr) =
    [0x04; 0x04] ++ be32 addr ++ [0] ++ be32 0 ++ be32 0 ++ [0xaa].
Proof.
  unfold packet_bytes, run_packet; simpl pckt_header; simpl pckt_address;
    simpl pckt_type; simpl pckt_length; simpl pckt_data; simpl pckt_end.
  rewrite !mem32_SWAPDWORD. reflexivity.
Qed.

Lemma sync_packet_bytes :
  packet_bytes sync_packet = [0x05; 0x05; 0; 0; 0; 0; 0; 0; 0; 0; 0; 0; 0; 0; 0; 0].
Proof. reflexivity. Qed.

Lemma byte_at_u8 (z : Z) : byte_at (u8 z) 0 = u8 z.
Proof.
  unfold byte_at, u8. rewrite Z.shiftr_0_r. change 0xff with (Z.ones 8).
  rewrite Z.land_ones by lia. apply Z.mod_mod. lia.
Qed.

Lemma u32_range (z : Z) : 0 <= u32 z < 2 ^ 32.
Proof. apply Z.mod_pos_bound. lia. Qed.

Lemma u32_small (z : Z) : 0 <= z < 2 ^ 32 -> u32 z = z.
Proof. apply Z.mod_small. Qed.

(** C9. The packets the program builds store the byte-swapped value in
    exactly the three 32-bit fields address, length and data, and the
    header, type and end fields as they are; swapping the three stored
    words again gives back the original values (the macro is its own
    inverse on 32-bit words); on the wire the header is in host order and
    the three words most significant byte first; every packet is sixteen
    bytes long whatever its fields hold. *)
Theorem packet_encoding_roundtrip (addr len value i to_write : Z) :
  0 <= addr < 2 ^ 32 ->
  0 <= value < 2 ^ 32 ->
  0 <= to_write < 2 ^ 32 ->
  (forall d, 0 <= d < 2 ^ 32 ->
             0 <= SWAPDWORD d < 2 ^ 32 /\ SWAPDWORD (SWAPDWORD d) = d)
  /\ (let p := sreg_packet addr len value in
      pckt_header p = IMX_SREG /\ pckt_type p = u8 len /\ pckt_end p = 0
      /\ pckt_address p = SWAPDWORD addr
      /\ pckt_length p = SWAPDWORD 0
      /\ pckt_data p = SWAPDWORD value
      /\ SWAPDWORD (pckt_address p) = addr
      /\ SWAPDWORD (pckt_length p) = 0
      /\ SWAPDWORD (pckt_data p) = value
      /\ packet_bytes p =
           mem16 IMX_SREG ++ be32 addr ++ [u8 len] ++ be32 0 ++ be32 value
           ++ [0])
  /\ (let p := dwnl_packet addr i to_write in
      pckt_header p = IMX_DWNL /\ pckt_type p = 0 /\ pckt_end p = 0
      /\ pckt_address p = SWAPDWORD (u32 (addr + i))
      /\ pckt_length p = SWAPDWORD to_write
      /\ pckt_data p = SWAPDWORD 0
      /\ SWAPDWORD (pckt_address p) = u32 (addr + i)
      /\ SWAPDWORD (pckt_length p) = to_write
      /\ SWAPDWORD (pckt_data p) = 0
      /\ packet_bytes p =
           mem16 IMX_DWNL ++ be32 (u32 (addr + i)) ++ [0] ++ be32 to_write
           ++ be32 0 ++ [0])
  /\ (let p := run_packet addr in
      pckt_header p = IMX_DWNL /\ pckt_type p = 0 /\ pckt_end p = 0xaa
      /\ pckt_address p = SWAPDWORD addr
      /\ pckt_length p = SWAPDWORD 0
      /\ pckt_data p = SWAPDWORD 0
      /\ SWAPDWORD (pckt_address p) = addr
      /\ packet_bytes p =
           mem16 IMX_DWNL ++ be32 addr ++ [0] ++ be32 0 ++ be32 0 ++ [0xaa])
  /\ (forall p : imx_packet, List.length (packet_bytes p) = 16%nat).
Proof.
  intros Haddr Hvalue Hto.
  split; [| split; [| split; [| split]]].
  - intros d Hd. split.
    + apply SWAPDWORD_range.
    + apply SWAPDWORD_involutive; assumption.
  - cbv zeta. repeat split; try reflexivity.
    + apply SWAPDWORD_involutive; assumption.
    + apply SWAPDWORD_involutive; assumption.
    + rewrite sreg_packet_bytes, byte_at_u8. reflexivity.
  - cbv zeta. repeat split; try reflexivity.
    + apply SWAPDWORD_involutive, u32_range.
    + apply SWAPDWORD_involutive; assumption.
    + rewrite dwnl_packet_bytes. reflexivity.
  - cbv zeta. repeat split; try reflexivity.
    + apply SWAPDWORD_involutive; assumption.
    + rewrite run_packet_bytes. reflexivity.
  - apply packet_bytes_length.
Qed.

Lemma packet_encoding_roundtrip_witness :
  SWAPDWORD (pckt_address (sreg_packet 0x1000A0A4 32 9215)) = 0x1000A0A4
  /\ packet_bytes (sreg_packet 0x1000A0A4 32 9215) =
       [0x02; 0x02; 0x10; 0x00; 0xA0; 0xA4; 32; 0; 0; 0; 0; 0; 0; 0x23; 0xFF; 0]
  /\ packet_bytes (dwnl_packet 0xC0000000 4096 904) =
       [0x04; 0x04; 0xC0; 0x00; 0x10; 0x00; 0; 0; 0; 0x03; 0x88; 0; 0; 0; 0; 0].
Proof.
  destruct (packet_encoding_roundtrip 0x1000A0A4 32 9215 4096 904)
    as (_ & (_ & _ & _ & _ & _ & _ & Ha & _ & _ & Hb) & _); try lia.
  split; [exact Ha|]. split; reflexivity.
Defined.

(** ** The logs are append-only *)

Section Adds.

Variable P : wire_event -> Prop.
Variable Q : message -> Prop.

Lemma adds_ret {A : Type} (a : A) : adds P Q (ret a).
Proof.
  intros w. exists [], []. simpl. rewrite !app_nil_r. auto.
Qed.

Lemma adds_bind {A B : Type} (m : IO A) (k : A -> IO B) :
  adds P Q m -> (forall a, adds P Q (k a)) -> adds P Q (bind m k).
Proof.
  intros Hm Hk w. unfold bind.
  destruct (Hm w) as (t1 & c1 & Ht1 & Hc1 & HP1 & HQ1).
  destruct (m w) as [a w1]. simpl in Ht1, Hc1.
  destruct (Hk a w1) as (t2 & c2 & Ht2 & Hc2 & HP2 & HQ2).
  exists (t1 ++ t2), (c1 ++ c2).
  rewrite Ht2, Hc2, Ht1, Hc1, <- !app_assoc.
  repeat split; try reflexivity; apply Forall_app; auto.
Qed.

Lemma adds_printf (m : message) : Q m -> adds P Q (printf m).
Proof.
  intros Hm w. exists [], [m]. simpl. rewrite app_nil_r. auto.
Qed.

Lemma adds_write (bytes : list Z) : P (Sent bytes) -> adds P Q (write bytes).
Proof.
  intros Hb w. exists [Sent bytes], []. simpl. rewrite app_nil_r. auto.
Qed.

Lemma adds_set_baud (baud : Z) :
  P (SetBaud baud) -> adds P Q (set_baud baud).
Proof.
  intros Hb w. exists [SetBaud baud], []. simpl. rewrite app_nil_r. auto.
Qed.

Lemma adds_read4 : (forall r, P (Read4 r)) -> adds P Q read4.
Proof.
  intros Hr w. unfold read4.
  destruct (inbound w) as [| r rest]; simpl.
  - exists [Read4 ShortRead], []. rewrite app_nil_r. auto.
  - exists [Read4 r], []. rewrite app_nil_r. auto.
Qed.

End Adds.

(** Walks through a computation built from [bind], [if] and [match],
    leaving the conditions on what is logged to [tac]. *)
Ltac adds_step tac :=
  match goal with
  | |- appends _ => unfold appends
  | |- adds _ _ (bind _ _) => apply adds_bind; [| intros ?]
  | |- adds _ _ (if ?b then _ else _) => destruct b
  | |- adds _ _ (match ?x with _ => _ end) => destruct x
  | |- adds _ _ (let _ := _ in _) => cbv zeta
  | |- adds _ _ (ret _) => apply adds_ret
  | |- adds _ _ (printf _) => apply adds_printf; tac
  | |- adds _ _ (write _) => apply adds_write; tac
  | |- adds _ _ (set_baud _) => apply adds_set_baud; tac
  | |- adds _ _ read4 => apply adds_read4; intros; tac
  | |- adds _ _ ?m =>
      solve [auto with adds | change (appends m); auto with adds]
  end.

Ltac adds_tac tac := repeat adds_step tac.

Create HintDb adds.

Lemma appends_imx_sync : appends imx_sync.
Proof. unfold imx_sync. adds_tac ltac:(exact I). Qed.

Lemma appends_imx_set_register (addr len value ignore : Z) :
  appends (imx_set_register addr len value ignore).
Proof. unfold imx_set_register. adds_tac ltac:(exact I). Qed.

#[local] Hint Resolve appends_imx_sync appends_imx_set_register : adds.

Lemma appends_imx_set_baud (baud : Z) : appends (imx_set_baud baud).
Proof. unfold imx_set_baud. adds_tac ltac:(exact I). Qed.

Lemma appends_refresh_loop (n : nat) : appends (refresh_loop n).
Proof. induction n; simpl; adds_tac ltac:(exact I). Qed.

#[local] Hint Resolve appends_imx_set_baud appends_refresh_loop : adds.

Lemma appends_imx_setup_system : appends imx_setup_system.
Proof. unfold imx_setup_system. adds_tac ltac:(exact I). Qed.

Lemma appends_imx_run (addr : Z) : appends (imx_run addr).
Proof. unfold imx_run. adds_tac ltac:(exact I). Qed.

Lemma appends_download_loop (fuel : nat) :
  forall bin addr size i, appends (download_loop fuel bin addr size i).
Proof.
  induction fuel as [| fuel IH]; intros bin addr size i; simpl.
  - adds_tac ltac:(exact I).
  - destruct (i <? size); [| adds_tac ltac:(exact I)].
    cbv zeta. unfold appends.
    apply adds_bind; [adds_tac ltac:(exact I) | intros _].
    apply adds_bind; [adds_tac ltac:(exact I) | intros r].
    destruct r as [response_b |]; [| adds_tac ltac:(exact I)].
    destruct (negb (response_b =? 0x56787856)); [adds_tac ltac:(exact I) |].
    do 2 (apply adds_bind; [adds_tac ltac:(exact I) | intros _]).
    apply IH.
Qed.

#[local] Hint Resolve appends_imx_setup_system appends_imx_run
  appends_download_loop : adds.

(** ** Sync *)

Lemma read4_eq (w : world) :
  read4 w = (next_read w,
             mk_world (tl (inbound w)) (wire w ++ [Read4 (next_read w)])
                      (console w)).
Proof. unfold read4, next_read. destruct (inbound w); reflexivity. Qed.

(** Brings [(l ++ [a]) ++ [b]] to [l ++ [a; b]]. *)
Ltac flatten_logs := repeat (rewrite <- app_assoc; simpl app).

(** C5. [imx_sync] writes the sixteen bytes 05 05 00 ... 00 (a SYNC header
    and every other field zero), performs one 4-byte read and nothing else
    on the port, and reports the outcome the specification gives for that
    read: it returns 0 exactly when the word read is 0xf0f0f0f0; for any
    other full word it returns -1 and prints the illegal-response
    diagnostic with that word; for a short read it returns -1 and prints
    the timeout diagnostic. *)
Theorem sync_response_contract (w : world) :
  let r := next_read w in
  imx_sync w =
    (code_of (spec_sync r),
     mk_world (tl (inbound w))
              (wire w ++ [Sent [0x05; 0x05; 0; 0; 0; 0; 0; 0; 0; 0; 0; 0; 0; 0; 0; 0];
                          Read4 r])
              (console w ++ [Synchronizing; message_of (spec_sync r)]))
  /\ (fst (imx_sync w) = 0 <-> r = Got4 0xf0f0f0f0)
  /\ (forall v, r = Got4 v -> v <> 0xf0f0f0f0 ->
        fst (imx_sync w) = -1
        /\ console (snd (imx_sync w)) =
             console w ++ [Synchronizing; FailedIllegalResponse v])
  /\ (r = ShortRead ->
        fst (imx_sync w) = -1
        /\ console (snd (imx_sync w)) =
             console w ++ [Synchronizing; FailedTimeout]).
Proof.
  cbv zeta. unfold next_read, imx_sync, bind, printf, write, read4, ret.
  rewrite sync_packet_bytes.
  simpl. destruct (inbound w) as [| [v |] rest]; simpl; flatten_logs.
  - repeat split; intros; try reflexivity; try discriminate.
  - destruct (Z.eqb_spec v 0xf0f0f0f0) as [-> | Hne]; simpl; flatten_logs.
    + repeat split; intros; try reflexivity; try discriminate; congruence.
    + repeat split; intros; try reflexivity; try discriminate; try congruence.
  - repeat split; intros; try reflexivity; try discriminate.
Qed.

Lemma sync_response_contract_witness :
  imx_sync (fresh [Got4 0xf0f0f0f0]) =
    (0, mk_world []
          [Sent [0x05; 0x05; 0; 0; 0; 0; 0; 0; 0; 0; 0; 0; 0; 0; 0; 0];
           Read4 (Got4 0xf0f0f0f0)]
          [Synchronizing; Ok])
  /\ fst (imx_sync (fresh [Got4 0x12345678])) = -1
  /\ console (snd (imx_sync (fresh [Got4 0x12345678]))) =
       [Synchronizing; FailedIllegalResponse 0x12345678]
  /\ console (snd (imx_sync (fresh []))) = [Synchronizing; FailedTimeout].
Proof.
  split; [exact (proj1 (sync_response_contract (fresh [Got4 0xf0f0f0f0]))) |].
  destruct (sync_response_contract (fresh [Got4 0x12345678]))
    as (_ & _ & Hbad & _).
  destruct (Hbad 0x12345678 eq_refl) as [Hcode Hmsg]; [discriminate |].
  destruct (sync_response_contract (fresh [])) as (_ & _ & _ & Hshort).
  destruct (Hshort eq_refl) as [_ Hto].
  repeat split; assumption.
Defined.

(** ** Set-register *)

(** C6. For a width other than 8, 16 and 32 [imx_set_register] returns -1
    after printing the illegal-size diagnostic and leaves the port
    untouched: nothing is written and nothing is read. For a width of 8,
    16 or 32 and a device answering 0x56787856 then 0x128a8a12 it writes
    the one SET-REGISTER packet, reads the two words and returns 0,
    whatever [ignore] is. *)
Theorem set_register_width_contract (addr len value ignore : Z) (w : world) :
  (len <> 8 -> len <> 16 -> len <> 32 ->
     imx_set_register addr len value ignore w =
       (-1, mk_world (inbound w) (wire w)
              (console w ++ [WritingRegister value len addr;
                             IllegalRegisterSize])))
  /\ (len = 8 \/ len = 16 \/ len = 32 ->
      forall rest,
        inbound w = Got4 0x56787856 :: Got4 0x128a8a12 :: rest ->
        imx_set_register addr len value ignore w =
          (0, mk_world rest
                (wire w ++ [Sent ([0x02; 0x02] ++ be32 addr ++ [len] ++ be32 0
                                  ++ be32 value ++ [0]);
                            Read4 (Got4 0x56787856);
                            Read4 (Got4 0x128a8a12)])
                (console w ++ [WritingRegister value len addr; Ok]))).
Proof.
  split.
  - intros H8 H16 H32. unfold imx_set_register, bind, printf, ret.
    apply Z.eqb_neq in H8, H16, H32. rewrite H8, H16, H32. simpl.
    flatten_logs. reflexivity.
  - intros Hlen rest Hin.
    assert (Hbyte : byte_at (u8 len) 0 = len).
    { destruct Hlen as [-> | [-> | ->]]; reflexivity. }
    unfold imx_set_register, bind, printf, write, read4, ret.
    rewrite sreg_packet_bytes, Hbyte.
    replace (negb (len =? 8) && negb (len =? 16) && negb (len =? 32))
      with false by (destruct Hlen as [-> | [-> | ->]]; reflexivity).
    simpl. rewrite Hin. simpl. flatten_logs. reflexivity.
Qed.

Lemma set_register_width_contract_witness :
  imx_set_register 0x10000000 24 1 0 (fresh [Got4 0x56787856; Got4 0x128a8a12])
    = (-1, mk_world [Got4 0x56787856; Got4 0x128a8a12] []
             [WritingRegister 1 24 0x10000000; IllegalRegisterSize])
  /\ imx_set_register 0x10000000 16 1 0
       (fresh [Got4 0x56787856; Got4 0x128a8a12])
     = (0, mk_world []
             [Sent [0x02; 0x02; 0x10; 0; 0; 0; 16; 0; 0; 0; 0; 0; 0; 0; 1; 0];
              Read4 (Got4 0x56787856); Read4 (Got4 0x128a8a12)]
             [WritingRegister 1 16 0x10000000; Ok]).
Proof.
  split.
  - apply (proj1 (set_register_width_contract 0x10000000 24 1 0
                    (fresh [Got4 0x56787856; Got4 0x128a8a12]))); lia.
  - apply (proj2 (set_register_width_contract 0x10000000 16 1 0
                    (fresh [Got4 0x56787856; Got4 0x128a8a12]))).
    + right; left; reflexivity.
    + reflexivity.
Defined.

(** ** Run *)

(** C7. [imx_run] first writes a DOWNLOAD-opcode packet holding the
    address, end = 0xaa and every other field zero, and reads one word.
    Unless that word is 0x56787856 it stops there with -1: the timeout
    diagnostic for a short read, the illegal-response diagnostic carrying
    the word otherwise. When it is 0x56787856 it writes a SYNC packet with
    every other field zero, reads one more word and reports the outcome
    the specification gives for the handshake: 0 exactly for 0x08888888 or
    0x88888888, timeout for a short read, mismatch otherwise. The run
    command hands the session on as it found it: [synced] is not
    touched. *)
Theorem run_two_phase (addr : Z) (w : world) :
  let r1 := next_read w in
  let r2 := second_read w in
  let phase1 :=
    [Sent ([0x04; 0x04] ++ be32 addr ++ [0] ++ be32 0 ++ be32 0 ++ [0xaa]);
     Read4 r1] in
  let phase2 :=
    [Sent [0x05; 0x05; 0; 0; 0; 0; 0; 0; 0; 0; 0; 0; 0; 0; 0; 0]; Read4 r2] in
  (r1 = Got4 0x56787856 ->
     imx_run addr w =
       (code_of (spec_run_handshake r2),
        mk_world (tl (tl (inbound w))) (wire w ++ phase1 ++ phase2)
                 (console w ++ [Calling addr;
                                message_of (spec_run_handshake r2)])))
  /\ (r1 <> Got4 0x56787856 ->
      imx_run addr w =
        (-1,
         mk_world (tl (inbound w)) (wire w ++ phase1)
                  (console w ++ [Calling addr;
                                 match r1 with
                                 | ShortRead => FailedTimeout
                                 | Got4 v => FailedIllegalResponse v
                                 end])))
  /\ (fst (imx_run addr w) = 0 <->
      r1 = Got4 0x56787856
      /\ (r2 = Got4 0x08888888 \/ r2 = Got4 0x88888888))
  /\ (forall (s : session) (k : session -> IO result),
        addr <> 0 ->
        (fst (imx_run addr w) = 0 ->
           cmd_run addr s k w = k s (snd (imx_run addr w)))
        /\ (fst (imx_run addr w) <> 0 ->
            snd (fst (cmd_run addr s k w)) = s)).
Proof.
  cbv zeta. unfold next_read, second_read.
  split; [| split; [| split]].
  - intros Hr1. unfold imx_run, bind, printf, write, read4, ret.
    rewrite run_packet_bytes. simpl.
    destruct (inbound w) as [| r rest]; [discriminate |]. subst r. simpl.
    destruct rest as [| [v |] rest']; simpl; flatten_logs; try reflexivity.
    destruct ((v =? 0x08888888) || (v =? 0x88888888)); simpl; flatten_logs;
      reflexivity.
  - intros Hr1. unfold imx_run, bind, printf, write, read4, ret.
    rewrite run_packet_bytes. simpl.
    destruct (inbound w) as [| [v |] rest]; simpl; flatten_logs;
      try reflexivity.
    destruct (Z.eqb_spec v 0x56787856) as [-> | Hne]; [congruence |].
    simpl. flatten_logs. reflexivity.
  - unfold imx_run, bind, printf, write, read4, ret. simpl.
    destruct (inbound w) as [| [v |] rest]; simpl;
      try (split; [discriminate | intros [H _]; discriminate]).
    destruct (Z.eqb_spec v 0x56787856) as [-> | Hne]; simpl.
    + destruct rest as [| [v2 |] rest']; simpl;
        try (split; [discriminate | intros [_ [H | H]]; discriminate]).
      destruct (Z.eqb_spec v2 0x08888888) as [-> | Hn1]; simpl.
      * split; [intros _ | reflexivity]. split; [reflexivity | left; reflexivity].
      * destruct (Z.eqb_spec v2 0x88888888) as [-> | Hn2]; simpl.
        -- split; [intros _ | reflexivity].
           split; [reflexivity | right; reflexivity].
        -- split; [discriminate | intros [_ [H | H]]; congruence].
    + split; [discriminate | intros [H _]; congruence].
  - intros s k Haddr. apply Z.eqb_neq in Haddr. unfold cmd_run, bind.
    rewrite Haddr. destruct (imx_run addr w) as [r w']. simpl.
    split.
    + intros ->. reflexivity.
    + intros Hr. apply Z.eqb_neq in Hr. rewrite Hr. reflexivity.
Qed.

Lemma run_two_phase_witness :
  imx_run 0xC0000000 (fresh [Got4 0x56787856; Got4 0x88888888]) =
    (0, mk_world []
          [Sent [0x04; 0x04; 0xC0; 0; 0; 0; 0; 0; 0; 0; 0; 0; 0; 0; 0; 0xaa];
           Read4 (Got4 0x56787856);
           Sent [0x05; 0x05; 0; 0; 0; 0; 0; 0; 0; 0; 0; 0; 0; 0; 0; 0];
           Read4 (Got4 0x88888888)]
          [Calling 0xC0000000; Ok])
  /\ imx_run 0xC0000000 (fresh [Got4 0x11111111; Got4 0x88888888]) =
       (-1, mk_world [Got4 0x88888888]
              [Sent [0x04; 0x04; 0xC0; 0; 0; 0; 0; 0; 0; 0; 0; 0; 0; 0; 0; 0xaa];
               Read4 (Got4 0x11111111)]
              [Calling 0xC0000000; FailedIllegalResponse 0x11111111]).
Proof.
  split.
  - apply (proj1 (run_two_phase 0xC0000000
                    (fresh [Got4 0x56787856; Got4 0x88888888]))).
    reflexivity.
  - apply (proj1 (proj2 (run_two_phase 0xC0000000
                    (fresh [Got4 0x11111111; Got4 0x88888888])))).
    discriminate.
Defined.

(** ** Set-baud *)

(** A 32-bit register write puts its packet on the port and then only
    reads: one or two of them. *)
Lemma set_register_exchange (addr value ignore : Z) (w : world) :
  exists t,
    wire (snd (imx_set_register addr 32 value ignore w)) =
      wire w ++ Sent (packet_bytes (sreg_packet addr 32 value)) :: t
    /\ forallb is_read t = true
    /\ (1 <= List.length t <= 2)%nat.
Proof.
  unfold imx_set_register, bind, printf, write, read4, ret. simpl.
  destruct (inbound w) as [| [vb |] rest]; simpl.
  - destruct (negb (ignore =? 0)); simpl; flatten_logs;
      eexists; (split; [reflexivity | split; [reflexivity | simpl; lia]]).
  - destruct rest as [| [vc |] rest']; simpl.
    + destruct (negb (ignore =? 0)); simpl; flatten_logs;
        eexists; (split; [reflexivity | split; [reflexivity | simpl; lia]]).
    + destruct ((vb =? 0x56787856) && (vc =? 0x128a8a12));
        [| destruct (negb (ignore =? 0))]; simpl; flatten_logs;
        eexists; (split; [reflexivity | split; [reflexivity | simpl; lia]]).
    + destruct (negb (ignore =? 0)); simpl; flatten_logs;
        eexists; (split; [reflexivity | split; [reflexivity | simpl; lia]]).
  - destruct (negb (ignore =? 0)); simpl; flatten_logs;
      eexists; (split; [reflexivity | split; [reflexivity | simpl; lia]]).
Qed.

(** C1, as the code has it. [imx_set_baud] drops the results of its two
    register writes: it always returns 0 and always reconfigures the local
    port, once, as its last action on the port, after the divisor write
    and the FIFO-timeout write have each been sent and their responses
    read, whether or not the device acknowledged them. *)
Theorem set_baud_reconfigures_last (baud : Z) (w : world) :
  fst (imx_set_baud baud w) = 0
  /\ exists t1 t2,
       wire (snd (imx_set_baud baud w)) =
         wire w
         ++ (Sent ([0x02; 0x02] ++ be32 0x1000A0A4 ++ [32] ++ be32 0
                   ++ be32 (u32 (baud / 100 - 1)) ++ [0]) :: t1)
         ++ (Sent ([0x02; 0x02] ++ be32 0x1000A0A8 ++ [32] ++ be32 0
                   ++ be32 9999 ++ [0]) :: t2)
         ++ [SetBaud baud]
       /\ forallb is_read t1 = true /\ forallb is_read t2 = true
       /\ (1 <= List.length t1 <= 2)%nat /\ (1 <= List.length t2 <= 2)%nat.
Proof.
  unfold imx_set_baud, bind.
  destruct (printf (ChangingBaud baud) w) as [u w0] eqn:E0.
  assert (Hw0 : wire w0 = wire w) by (inversion E0; reflexivity).
  destruct (set_register_exchange 0x1000A0A4 (u32 (baud / 100 - 1)) 0 w0)
    as (t1 & Ht1 & Hr1 & Hl1).
  destruct (imx_set_register 0x1000A0A4 32 (u32 (baud / 100 - 1)) 0 w0)
    as [r1 w1].
  destruct (set_register_exchange 0x1000A0A8 (10000 - 1) 1 w1)
    as (t2 & Ht2 & Hr2 & Hl2).
  destruct (imx_set_register 0x1000A0A8 32 (10000 - 1) 1 w1) as [r2 w2].
  simpl in Ht1, Ht2 |- *.
  split; [reflexivity |].
  exists t1, t2. rewrite Ht2, Ht1, Hw0.
  rewrite !sreg_packet_bytes.
  change (byte_at (u8 32) 0) with 32. change (10000 - 1) with 9999.
  repeat split; try assumption; try lia.
  rewrite <- !app_assoc. reflexivity.
Qed.

(** C1 as stated fails: with a device that never answers, the divisor
    write times out (and returns -1 where it is called), and the local
    port is reconfigured all the same. *)
Lemma set_baud_after_failed_divisor_write :
  fst (imx_set_register 0x1000A0A4 32 (u32 (921600 / 100 - 1)) 0 (fresh []))
    = -1
  /\ imx_set_baud 921600 (fresh []) =
       (0, mk_world []
             [Sent [0x02; 0x02; 0x10; 0x00; 0xA0; 0xA4; 32; 0; 0; 0; 0;
                    0; 0; 0x23; 0xFF; 0];
              Read4 ShortRead;
              Sent [0x02; 0x02; 0x10; 0x00; 0xA0; 0xA8; 32; 0; 0; 0; 0;
                    0; 0; 0x27; 0x0F; 0];
              Read4 ShortRead;
              SetBaud 921600]
             [ChangingBaud 921600;
              WritingRegister 9215 32 0x1000A0A4; FailedTimeout;
              WritingRegister 9999 32 0x1000A0A8; Ignored;
              BaudDone])
  /\ In (SetBaud 921600) (wire (snd (imx_set_baud 921600 (fresh [])))).
Proof.
  split; [reflexivity |]. split; [reflexivity |].
  vm_compute. do 4 right. left. reflexivity.
Qed.

(** ** Setup *)

Lemma bind_assoc {A B C : Type} (m : IO A) (f : A -> IO B) (g : B -> IO C)
      (w : world) :
  bind (bind m f) g w = bind m (fun a => bind (f a) g) w.
Proof. unfold bind. destruct (m w) as [a w1]. reflexivity. Qed.

Lemma bind_ext {A B : Type} (m : IO A) (k k' : A -> IO B) (w : world) :
  (forall a w1, k a w1 = k' a w1) -> bind m k w = bind m k' w.
Proof. intros H. unfold bind. destruct (m w). apply H. Qed.

Lemma bind_ret_l {A B : Type} (a : A) (k : A -> IO B) (w : world) :
  bind (ret a) k w = k a w.
Proof. reflexivity. Qed.

Lemma setup_is_replay (w : world) :
  imx_setup_system w =
    (printf InitializingSDRAM ;; replay SetupSequence ;;
     printf SDRAMInitialized ;; ret 0) w.
Proof.
  unfold imx_setup_system, SetupSequence. simpl replay. simpl refresh_loop.
  repeat (rewrite ?bind_assoc, ?bind_ret_l; apply bind_ext; intros _ ?w;
          cbv beta).
  reflexivity.
Qed.

(** With the ignore flag clear nothing is ever reported as ignored. *)
Lemma set_register_strict (addr len value : Z) :
  adds (fun _ => True) (fun m => m <> Ignored)
       (imx_set_register addr len value 0).
Proof.
  unfold imx_set_register. change (negb (0 =? 0)) with false. cbv iota.
  adds_tac ltac:(first [exact I | discriminate]).
Qed.

#[local] Hint Resolve set_register_strict : adds.

Lemma refresh_loop_strict (n : nat) :
  adds (fun _ => True) (fun m => m <> Ignored) (refresh_loop n).
Proof.
  induction n; simpl; adds_tac ltac:(first [exact I | discriminate]).
Qed.

#[local] Hint Resolve refresh_loop_strict : adds.

Lemma setup_system_strict :
  adds (fun _ => True) (fun m => m <> Ignored) imx_setup_system.
Proof.
  unfold imx_setup_system. adds_tac ltac:(first [exact I | discriminate]).
Qed.

(** A register write with the ignore flag clear fails unless both magic
    words arrive. *)
Lemma set_register_unacknowledged (addr value : Z) (w : world) :
  ~ (next_read w = Got4 0x56787856 /\ second_read w = Got4 0x128a8a12) ->
  fst (imx_set_register addr 32 value 0 w) = -1.
Proof.
  unfold next_read, second_read, imx_set_register, bind, printf, write,
    read4, ret. simpl.
  destruct (inbound w) as [| [vb |] rest]; simpl; try reflexivity.
  destruct rest as [| [vc |] rest']; simpl; try reflexivity.
  destruct (Z.eqb_spec vb 0x56787856) as [-> | Hb]; simpl;
    [| reflexivity].
  destruct (Z.eqb_spec vc 0x128a8a12) as [-> | Hc]; simpl;
    [| reflexivity].
  intros H. exfalso. apply H. split; reflexivity.
Qed.

(** C2, as the code has it. [imx_setup_system] replays the table in order
    with the ignore flag clear on every write: an entry whose response
    times out or mismatches is reported as failed by its write (return
    value -1, failure diagnostic, never the ignored one). It is
    [imx_setup_system] itself that drops the result of every write,
    carries on with the next entry and always returns 0. *)
Theorem setup_replays_with_ignore_clear (w : world) :
  imx_setup_system w =
    (printf InitializingSDRAM ;; replay SetupSequence ;;
     printf SDRAMInitialized ;; ret 0) w
  /\ Forall (fun e => snd e = 0 /\ snd (fst (fst e)) = 32) SetupSequence
  /\ fst (imx_setup_system w) = 0
  /\ (exists c, console (snd (imx_setup_system w)) = console w ++ c
                /\ ~ In Ignored c)
  /\ (forall addr value w1,
        ~ (next_read w1 = Got4 0x56787856
           /\ second_read w1 = Got4 0x128a8a12) ->
        fst (imx_set_register addr 32 value 0 w1) = -1).
Proof.
  split; [apply setup_is_replay |].
  split; [repeat constructor |].
  split.
  { unfold imx_setup_system, bind.
    repeat match goal with
           | |- context [let (_, _) := ?m ?x in _] => destruct (m x)
           end.
    reflexivity. }
  split.
  - destruct (setup_system_strict w) as (t & c & _ & Hc & _ & HQ).
    exists c. split; [exact Hc |].
    intros Hin. rewrite Forall_forall in HQ. exact (HQ _ Hin eq_refl).
  - intros addr value w1. apply set_register_unacknowledged.
Qed.

Lemma setup_replays_with_ignore_clear_witness :
  fst (imx_setup_system (fresh [])) = 0
  /\ fst (imx_set_register 0x10000000 32 0x00040304 0 (fresh [])) = -1.
Proof.
  destruct (setup_replays_with_ignore_clear (fresh []))
    as (_ & _ & H0 & _ & Hfail).
  split; [exact H0 |].
  apply Hfail. intros [H _]. discriminate H.
Defined.

(** C2 as stated fails: with a device that never answers, every write of
    the replay reports a timeout and none is reported as ignored, which
    is not what the replay with the ignore flag set prints. *)
Lemma setup_does_not_ignore :
  In FailedTimeout (console (snd (imx_setup_system (fresh []))))
  /\ ~ In Ignored (console (snd (imx_setup_system (fresh []))))
  /\ fst (imx_set_register 0x10000000 32 0x00040304 0
            (snd (printf InitializingSDRAM (fresh [])))) = -1
  /\ console (snd (imx_setup_system (fresh []))) <>
     console (snd ((printf InitializingSDRAM ;;
                    replay (with_ignore SetupSequence) ;;
                    printf SDRAMInitialized) (fresh []))).
Proof.
  split; [vm_compute; right; right; left; reflexivity |].
  split.
  { vm_compute. intros H.
    repeat (destruct H as [H | H]; [discriminate H |]). exact H. }
  split; [reflexivity |].
  vm_compute. discriminate.
Qed.

(** ** Download *)

Lemma block_offset_lt_count (S : Z) (k : nat) :
  (k < block_count S)%nat -> block_offset k < S.
Proof.
  unfold block_count, block_offset, CHUNK_SIZE. intros Hk.
  assert (H : Z.of_nat k < (S + 4096 - 1) / 4096) by lia.
  assert (H' : Z.of_nat k + 1 <= (S + 4096 - 1) / 4096) by lia.
  pose proof (Z.mul_div_le (S + 4096 - 1) 4096 ltac:(lia)). lia.
Qed.

Lemma block_offset_ge_count (S : Z) (k : nat) :
  (block_count S <= k)%nat -> S <= block_offset k.
Proof.
  unfold block_count, block_offset, CHUNK_SIZE. intros Hk.
  destruct (Z.le_gt_cases S 0) as [Hs | Hs]; [lia |].
  assert (H : (S + 4096 - 1) / 4096 <= Z.of_nat k) by lia.
  pose proof (Z.mod_pos_bound (S + 4096 - 1) 4096 ltac:(lia)).
  pose proof (Z.div_mod (S + 4096 - 1) 4096 ltac:(lia)). lia.
Qed.

Lemma block_count_le (S : Z) : 0 <= S -> (block_count S <= Z.to_nat S)%nat.
Proof.
  intros Hs. unfold block_count, CHUNK_SIZE.
  apply Z2Nat.inj_le; try lia.
  - apply Z.div_pos; lia.
  - destruct (Z.eq_dec S 0) as [-> | Hne]; [reflexivity |].
    assert ((S + 4096 - 1) / 4096 < S + 1); [| lia].
    apply Z.div_lt_upper_bound; lia.
Qed.

(** One successful iteration of the loop. *)
Lemma download_round (fuel : nat) (bin : list Z) (addr size i : Z)
      (w : world) (rest : list read_result) :
  i < size ->
  inbound w = Got4 0x56787856 :: rest ->
  let to_write := Z.min CHUNK_SIZE (size - i) in
  download_loop (S fuel) bin addr size i w =
  download_loop fuel (skipn (Z.to_nat to_write) bin) addr size (i + to_write)
    (mk_world rest
       (wire w ++ [Sent (download_header (u32 (addr + i)) to_write);
                   Read4 (Got4 0x56787856);
                   Sent (firstn (Z.to_nat to_write) bin)])
       (console w ++ [Progress (u32 ((i + to_write) * 30) / size)
                               (i + to_write) size
                               (u32 ((i + to_write) * 100) / size)])).
Proof.
  intros Hi Hin. cbv zeta. simpl download_loop.
  replace (i <? size) with true by (symmetry; apply Z.ltb_lt; assumption).
  assert (Hmin : (if size - i >? CHUNK_SIZE then CHUNK_SIZE else size - i)
                 = Z.min CHUNK_SIZE (size - i)).
  { destruct (Z.gtb_spec (size - i) CHUNK_SIZE); lia. }
  rewrite Hmin. unfold bind, write, read4, printf.
  rewrite dwnl_packet_bytes. simpl. rewrite Hin. simpl.
  flatten_logs. reflexivity.
Qed.

(** A failed iteration: the header is sent, the read does not give the
    acknowledgment, and the loop returns -1 without sending the payload. *)
Lemma download_round_fails (fuel : nat) (bin : list Z) (addr size i : Z)
      (w : world) :
  i < size ->
  next_read w <> Got4 0x56787856 ->
  let to_write := Z.min CHUNK_SIZE (size - i) in
  download_loop (S fuel) bin addr size i w =
    (Some (-1),
     mk_world (tl (inbound w))
       (wire w ++ [Sent (download_header (u32 (addr + i)) to_write);
                   Read4 (next_read w)])
       (console w ++ [match next_read w with
                      | ShortRead => BlockTimedOut i to_write (u32 (addr + i))
                      | Got4 v =>
                          BlockIllegalResponse i to_write (u32 (addr + i)) v
                      end])).
Proof.
  intros Hi Hbad. cbv zeta. simpl download_loop.
  replace (i <? size) with true by (symmetry; apply Z.ltb_lt; assumption).
  assert (Hmin : (if size - i >? CHUNK_SIZE then CHUNK_SIZE else size - i)
                 = Z.min CHUNK_SIZE (size - i)).
  { destruct (Z.gtb_spec (size - i) CHUNK_SIZE); lia. }
  rewrite Hmin. unfold bind, write, read4, printf, next_read in *.
  rewrite dwnl_packet_bytes. simpl.
  destruct (inbound w) as [| [v |] rest]; simpl; flatten_logs;
    try reflexivity.
  destruct (Z.eqb_spec v 0x56787856) as [-> | Hne]; [congruence |].
  simpl. flatten_logs. reflexivity.
Qed.

Lemma world_eta (w : world) :
  w = mk_world (inbound w) (wire w) (console w).
Proof. destruct w; reflexivity. Qed.

Section Transfer.

Variable content : list Z.
Variable addr : Z.

Local Notation "'total'" := (Z.of_nat (List.length content)).

(** [n] acknowledged blocks from block [k] on. *)
Lemma download_rounds :
  forall (n k fuel : nat) (w : world) (rest : list read_result),
    (k + n <= block_count total)%nat ->
    inbound w = repeat (Got4 0x56787856) n ++ rest ->
    download_loop (n + fuel)
      (skipn (Z.to_nat (Z.min total (block_offset k))) content) addr total
      (Z.min total (block_offset k)) w =
    download_loop fuel
      (skipn (Z.to_nat (Z.min total (block_offset (k + n)))) content) addr
      total (Z.min total (block_offset (k + n)))
      (mk_world rest
         (wire w ++ flat_map (block_exchange content addr) (seq k n))
         (console w ++ map (block_progress total) (seq k n))).
Proof.
  induction n as [| n IH]; intros k fuel w rest Hk Hin.
  - simpl in *. rewrite Nat.add_0_r, !app_nil_r, <- Hin, <- world_eta.
    reflexivity.
  - assert (Hlt : block_offset k < total)
      by (apply block_offset_lt_count; lia).
    assert (Hpos : 0 <= block_offset k)
      by (unfold block_offset, CHUNK_SIZE; lia).
    rewrite (Z.min_r total (block_offset k)) by lia.
    simpl Nat.add. simpl in Hin.
    rewrite (download_round _ _ _ _ _ _ _ Hlt Hin). cbv zeta.
    assert (Hnext :
              block_offset k + Z.min CHUNK_SIZE (total - block_offset k)
              = Z.min total (block_offset (S k))).
    { unfold block_offset, CHUNK_SIZE in *. lia. }
    rewrite skipn_skipn.
    replace (Z.to_nat (Z.min CHUNK_SIZE (total - block_offset k))
             + Z.to_nat (block_offset k))%nat
      with (Z.to_nat (Z.min total (block_offset (S k))))
      by (rewrite <- Hnext; unfold CHUNK_SIZE; lia).
    rewrite Hnext.
    rewrite (IH (S k) fuel _ rest) by first [lia | reflexivity].
    simpl wire. simpl console.
    replace (k + S n)%nat with (S k + n)%nat by lia.
    f_equal. f_equal.
    + rewrite <- app_assoc. reflexivity.
    + rewrite <- app_assoc. simpl map.
      rewrite <- Hnext. reflexivity.
Qed.

End Transfer.

Lemma download_loop_done (fuel : nat) (bin : list Z) (addr size i : Z)
      (w : world) :
  size <= i ->
  download_loop fuel bin addr size i w =
    (Some 0,
     mk_world (inbound w) (wire w) (console w ++ [DownloadComplete])).
Proof.
  intros Hi. apply Z.ltb_ge in Hi.
  destruct fuel; simpl; rewrite Hi; reflexivity.
Qed.

(** The loop never runs out of fuel when given as many units as there are
    bytes left, and it returns 0 or -1. *)
Lemma download_loop_total (fuel : nat) :
  forall bin addr size i w,
    size - i <= Z.of_nat fuel ->
    exists r w',
      download_loop fuel bin addr size i w = (Some r, w')
      /\ (r = 0 \/ r = -1).
Proof.
  induction fuel as [| fuel IH]; intros bin addr size i w Hfuel.
  - rewrite download_loop_done by lia. eauto.
  - destruct (Z.lt_ge_cases i size) as [Hlt | Hge];
      [| rewrite download_loop_done by lia; eauto].
    destruct (inbound w) as [| r rest] eqn:Hin.
    + rewrite download_round_fails; [eauto | assumption |].
      unfold next_read. rewrite Hin. discriminate.
    + assert (Hr : r = Got4 0x56787856 \/ next_read w <> Got4 0x56787856).
      { unfold next_read. rewrite Hin.
        destruct r as [v |]; [| right; discriminate].
        destruct (Z.eq_dec v 0x56787856) as [-> | Hne];
          [left; reflexivity | right; congruence]. }
      destruct Hr as [-> | Hbad].
      * rewrite (download_round _ _ _ _ _ _ _ Hlt Hin). cbv zeta.
        apply IH. unfold CHUNK_SIZE. lia.
      * rewrite download_round_fails by assumption. eauto.
Qed.

Lemma next_read_skipn (j : nat) (l : list read_result) (wi : list wire_event)
      (c : list message) :
  next_read (mk_world (skipn j l) wi c) = nth j l ShortRead.
Proof.
  unfold next_read. simpl. revert l.
  induction j as [| j IH]; intros [| r l]; simpl; try reflexivity.
  apply IH.
Qed.

(** [imx_download] always returns, and returns 0 or -1. *)
Lemma imx_download_total (fopen : string -> option (list Z)) (file : string)
      (addr : Z) (w : world) :
  exists r w',
    imx_download fopen file addr w = (Some r, w') /\ (r = 0 \/ r = -1).
Proof.
  unfold imx_download. destruct (fopen file) as [bin |].
  - unfold bind, printf. apply download_loop_total.
    pose proof (u32_range (Z.of_nat (List.length bin))). lia.
  - unfold bind, printf, ret. eauto.
Qed.

Section Image.

Variable fopen : string -> option (list Z).
Variable file : string.
Variable content : list Z.
Variable addr : Z.

Hypothesis Hopen : fopen file = Some content.

Local Notation "'total'" := (Z.of_nat (List.length content)).

Hypothesis Hsize : total < 2 ^ 32.

(** Every block acknowledged: the whole image goes out. *)
Lemma imx_download_succeeds (w : world) (rest : list read_result) :
  inbound w = repeat (Got4 0x56787856) (block_count total) ++ rest ->
  imx_download fopen file addr w =
    (Some 0,
     mk_world rest
       (wire w ++ flat_map (block_exchange content addr)
                           (seq 0 (block_count total)))
       (console w ++ Downloading file addr total
                  :: map (block_progress total) (seq 0 (block_count total))
                  ++ [DownloadComplete])).
Proof.
  intros Hin. unfold imx_download. rewrite Hopen.
  rewrite u32_small by lia. unfold bind, printf.
  pose proof (block_count_le total ltac:(lia)) as Hle.
  replace (Z.to_nat total)
    with (block_count total + (Z.to_nat total - block_count total))%nat
    by lia.
  pose proof (download_rounds content addr (block_count total) 0
                (Z.to_nat total - block_count total)
                (mk_world (inbound w) (wire w)
                          (console w ++ [Downloading file addr total]))
                rest ltac:(simpl; lia) Hin) as H.
  change (block_offset 0) with 0 in H.
  rewrite Z.min_r in H by lia. simpl skipn in H. simpl Nat.add in H.
  rewrite H. rewrite download_loop_done.
  - simpl. flatten_logs. reflexivity.
  - pose proof (block_offset_ge_count total (block_count total)
                  ltac:(lia)). lia.
Qed.

(** The first [j] blocks acknowledged and the header of block [j] not:
    the transfer stops there with -1, the payload of block [j] unsent. *)
Lemma imx_download_fails_at (w : world) (j : nat) :
  (j < block_count total)%nat ->
  firstn j (inbound w) = repeat (Got4 0x56787856) j ->
  nth j (inbound w) ShortRead <> Got4 0x56787856 ->
  fst (imx_download fopen file addr w) = Some (-1)
  /\ wire (snd (imx_download fopen file addr w)) =
       wire w ++ flat_map (block_exchange content addr) (seq 0 j)
       ++ [Sent (download_header (u32 (addr + block_offset j))
                                 (block_length total j));
           Read4 (nth j (inbound w) ShortRead)].
Proof.
  intros Hj Hacks Hbad. unfold imx_download. rewrite Hopen.
  rewrite u32_small by lia. unfold bind, printf.
  pose proof (block_count_le total ltac:(lia)) as Hle.
  replace (Z.to_nat total)
    with (j + S (Z.to_nat total - S j))%nat by lia.
  assert (Hin : inbound w = repeat (Got4 0x56787856) j
                            ++ skipn j (inbound w)).
  { rewrite <- Hacks. symmetry. apply firstn_skipn. }
  pose proof (download_rounds content addr j 0
                (S (Z.to_nat total - S j))
                (mk_world (inbound w) (wire w)
                          (console w ++ [Downloading file addr total]))
                (skipn j (inbound w)) ltac:(simpl; lia) Hin) as H.
  change (block_offset 0) with 0 in H.
  rewrite Z.min_r in H by lia. simpl skipn in H. simpl Nat.add in H.
  rewrite H.
  pose proof (block_offset_lt_count total j Hj) as Hlt.
  rewrite (Z.min_r total (block_offset j)) by lia.
  rewrite download_round_fails;
    [| assumption | rewrite next_read_skipn; assumption].
  rewrite next_read_skipn. simpl. split; [reflexivity |].
  rewrite <- app_assoc. reflexivity.
Qed.

End Image.

(** C4. When the image opens, holds [S] bytes with [0 < S < 2^32], and the
    device acknowledges every header with 0x56787856, [imx_download]
    returns 0 having done exactly this on the port, in this order, for
    k = 0 .. n-1 with n = ceil(S/4096): write the DOWNLOAD header with
    address [addr + 4096 k] (as a 32-bit sum) and length
    [min 4096 (S - 4096 k)], read the four-byte acknowledgment, write the
    [length] bytes of the image at offset [4096 k]; nothing is read after
    a payload. The offset reported after block [k] is the offset of block
    [k+1], and [S] after the last block; every block but the last is 4096
    bytes long and the last is [S mod 4096], or 4096 when that is 0. *)
Theorem download_sends_every_block
        (fopen : string -> option (list Z)) (file : string)
        (content : list Z) (addr : Z) (w : world) (rest : list read_result) :
  fopen file = Some content ->
  0 < Z.of_nat (List.length content) < 2 ^ 32 ->
  inbound w =
    repeat (Got4 0x56787856) (block_count (Z.of_nat (List.length content)))
    ++ rest ->
  let total := Z.of_nat (List.length content) in
  let n := block_count total in
  imx_download fopen file addr w =
    (Some 0,
     mk_world rest
       (wire w ++ flat_map (block_exchange content addr) (seq 0 n))
       (console w ++ Downloading file addr total
                  :: map (block_progress total) (seq 0 n)
                  ++ [DownloadComplete]))
  /\ CHUNK_SIZE * (Z.of_nat n - 1) < total <= CHUNK_SIZE * Z.of_nat n
  /\ (forall k, (k < n)%nat ->
        block_offset k < block_offset k + block_length total k
        /\ block_offset k + block_length total k =
             (if (S k <? n)%nat then block_offset (S k) else total)
        /\ block_length total k =
             (if (S k <? n)%nat then CHUNK_SIZE
              else if total mod CHUNK_SIZE =? 0 then CHUNK_SIZE
                   else total mod CHUNK_SIZE)
        /\ (0 <= addr -> addr + total <= 2 ^ 32 ->
            u32 (addr + block_offset k) = addr + block_offset k)).
Proof.
  intros Hopen Hsize Hin total n.
  split; [apply imx_download_succeeds; (assumption || lia) |].
  assert (Hlast : forall k, (k < n)%nat -> block_offset k < total)
    by (intros k Hk; apply block_offset_lt_count; assumption).
  assert (Hend : total <= block_offset n)
    by (apply block_offset_ge_count; reflexivity).
  assert (Hn : (0 < n)%nat).
  { destruct n; [| lia]. unfold block_offset in Hend. lia. }
  split.
  - specialize (Hlast (n - 1)%nat ltac:(lia)).
    unfold block_offset, CHUNK_SIZE in *. lia.
  - intros k Hk. pose proof (Hlast k Hk) as Hk1.
    assert (Hoff : block_offset (S k) = block_offset k + CHUNK_SIZE)
      by (unfold block_offset, CHUNK_SIZE; lia).
    assert (Hpos : 0 <= block_offset k)
      by (unfold block_offset, CHUNK_SIZE; lia).
    unfold block_length.
    destruct (Nat.ltb_spec (S k) n) as [Hmid | Hfin].
    + pose proof (Hlast (S k) Hmid) as Hk2.
      repeat split; try (unfold CHUNK_SIZE in *; lia).
      intros Ha Hb. apply u32_small. lia.
    + assert (Hnk : n = S k) by lia. rewrite Hnk, Hoff in Hend.
      assert (Hlen : Z.min CHUNK_SIZE (total - block_offset k)
                     = total - block_offset k)
        by (unfold CHUNK_SIZE in *; lia).
      rewrite Hlen.
      repeat split; try (unfold CHUNK_SIZE in *; lia).
      * destruct (Z.eqb_spec (total mod CHUNK_SIZE) 0) as [Hz | Hnz];
          unfold block_offset, CHUNK_SIZE in *;
          Z.div_mod_to_equations; lia.
      * intros Ha Hb. apply u32_small. lia.
Qed.

Lemma download_sends_every_block_witness :
  fst (imx_download (one_file "img.bin" (repeat 7 4100)) "img.bin" 0xC0000000
         (fresh [Got4 0x56787856; Got4 0x56787856])) = Some 0
  /\ nth 3 (wire (snd (imx_download (one_file "img.bin" (repeat 7 4100))
                         "img.bin" 0xC0000000
                         (fresh [Got4 0x56787856; Got4 0x56787856]))))
           (SetBaud 0) =
       Sent [0x04; 0x04; 0xC0; 0x00; 0x10; 0x00; 0; 0; 0; 0; 4; 0; 0; 0; 0; 0]
  /\ skipn 4 (wire (snd (imx_download (one_file "img.bin" (repeat 7 4100))
                           "img.bin" 0xC0000000
                           (fresh [Got4 0x56787856; Got4 0x56787856])))) =
       [Read4 (Got4 0x56787856); Sent [7; 7; 7; 7]].
Proof.
  destruct (download_sends_every_block
              (one_file "img.bin" (repeat 7 4100)) "img.bin" (repeat 7 4100)
              0xC0000000 (fresh [Got4 0x56787856; Got4 0x56787856]) [])
    as [H _].
  - reflexivity.
  - vm_compute. split; reflexivity.
  - reflexivity.
  - rewrite H. vm_compute. repeat split; reflexivity.
Defined.

(** ** The command loop *)

Section Loop.

Variable fopen : string -> option (list Z).
Variable strtoul : string -> Z.

Lemma appends_imx_download (file : string) (addr : Z) :
appends (imx_download fopen file addr).
Proof. unfold imx_download. adds_tac ltac:(exact I). Qed.

Lemma appends_break (s : session) : appends (break s).
Proof. unfold break. adds_tac ltac:(exact I). Qed.

#[local] Hint Resolve appends_imx_download appends_break : adds.

Lemma appends_sync_first (s : session) (k : session -> IO result) :
(forall s', appends (k s')) -> appends (sync_first s k).
Proof. intros Hk. unfold sync_first. adds_tac ltac:(exact I). Qed.

Lemma appends_cmd_set (a1 a2 a3 : string) (s : session)
    (k : session -> IO result) :
(forall s', appends (k s')) -> appends (cmd_set strtoul a1 a2 a3 s k).
Proof.
intros Hk. unfold cmd_set. apply appends_sync_first. intros s'.
adds_tac ltac:(exact I).
Qed.

Lemma appends_cmd_download (file a2 : string) (s : session)
    (k : session -> IO result) :
(forall s', appends (k s')) ->
appends (cmd_download fopen strtoul file a2 s k).
Proof.
intros Hk. unfold cmd_download. apply appends_sync_first. intros s'.
adds_tac ltac:(exact I).
Qed.

Lemma appends_cmd_sync (s : session) (k : session -> IO result) :
(forall s', appends (k s')) -> appends (cmd_sync s k).
Proof. intros Hk. unfold cmd_sync. adds_tac ltac:(exact I). Qed.

Lemma appends_cmd_setup (s : session) (k : session -> IO result) :
(forall s', appends (k s')) -> appends (cmd_setup s k).
Proof.
intros Hk. unfold cmd_setup. apply appends_sync_first. intros s'.
adds_tac ltac:(exact I).
Qed.

Lemma appends_cmd_baud (baud : Z) (s : session) (k : session -> IO result) :
(forall s', appends (k s')) -> appends (cmd_baud baud s k).
Proof. intros Hk. unfold cmd_baud. adds_tac ltac:(exact I). Qed.

Lemma appends_cmd_run (addr : Z) (s : session) (k : session -> IO result) :
(forall s', appends (k s')) -> appends (cmd_run addr s k).
Proof. intros Hk. unfold cmd_run. adds_tac ltac:(exact I). Qed.

Lemma appends_cmd_terminal (baud : Z) (s : session) :
appends (cmd_terminal baud s).
Proof. unfold cmd_terminal. adds_tac ltac:(exact I). Qed.

Lemma appends_command_loop_bounded (n : nat) :
forall args s,
  (List.length args <= n)%nat ->
  appends (command_loop fopen strtoul args s).
Proof.
induction n as [| n IH]; intros args s Hlen.
- destruct args; [| simpl in Hlen; lia]. simpl. unfold appends. apply adds_ret.
- destruct args as [| cmd rest]; [simpl; unfold appends; apply adds_ret |].
  simpl in Hlen. simpl command_loop.
  destruct (cmd =? "set")%string.
  { destruct rest as [| a1 [| a2 [| a3 rest']]];
      try (adds_tac ltac:(exact I)).
    apply appends_cmd_set. intros s'. apply IH. simpl in Hlen |- *. lia. }
  destruct (cmd =? "download")%string.
  { destruct rest as [| a1 [| a2 rest']]; try (adds_tac ltac:(exact I)).
    apply appends_cmd_download. intros s'. apply IH. simpl in Hlen |- *. lia. }
  destruct (cmd =? "sync")%string.
  { apply appends_cmd_sync. intros s'. apply IH. lia. }
  destruct (cmd =? "setup")%string.
  { apply appends_cmd_setup. intros s'. apply IH. lia. }
  destruct (cmd =? "baud")%string.
  { apply appends_sync_first. intros s'.
    destruct rest as [| a1 rest'].
    - apply appends_cmd_baud. intros s''. apply IH. lia.
    - cbv zeta. destruct (u32 (strtoul a1) =? 0);
        apply appends_cmd_baud; intros s''; apply IH; simpl in Hlen |- *; lia. }
  destruct (cmd =? "run")%string.
  { destruct rest as [| a1 rest'].
    - apply appends_cmd_run. intros s'. apply IH. lia.
    - cbv zeta. destruct (u32 (strtoul a1) =? 0);
        apply appends_cmd_run; intros s'; apply IH; simpl in Hlen |- *; lia. }
  destruct (cmd =? "terminal")%string.
  { destruct rest as [| a1 rest']; [apply appends_cmd_terminal |].
    cbv zeta. destruct (u32 (strtoul a1) =? 0); apply appends_cmd_terminal. }
  adds_tac ltac:(exact I).
Qed.

Lemma appends_command_loop (args : list string) (s : session) :
appends (command_loop fopen strtoul args s).
Proof. apply (appends_command_loop_bounded (List.length args)). lia. Qed.

End Loop.

Lemma appends_wire {A : Type} (m : IO A) (w : world) :
  appends m -> exists tail, wire (snd (m w)) = wire w ++ tail.
Proof. intros H. destruct (H w) as (t & c & Ht & _). eauto. Qed.

(** C10. The download command sets [entry] only when [imx_download] has
    returned 0, which it does only after the last block; when the image
    cannot be opened, or the acknowledgment of some block header is short
    or is not 0x56787856, [imx_download] returns -1, the command prints
    its diagnostic and leaves the loop with the session as it was, [entry]
    included. The same holds when the implicit sync before it fails. *)
Theorem download_failure_keeps_entry
        (fopen : string -> option (list Z)) (strtoul : string -> Z)
        (file a2 : string) (s : session) (k : session -> IO result)
        (w : world) :
  let addr := u32 (strtoul a2) in
  (fopen file = None ->
     fst (imx_download fopen file addr w) = Some (-1)
     /\ wire (snd (imx_download fopen file addr w)) = wire w)
  /\ (forall content j,
        fopen file = Some content ->
        Z.of_nat (List.length content) < 2 ^ 32 ->
        (j < block_count (Z.of_nat (List.length content)))%nat ->
        firstn j (inbound w) = repeat (Got4 0x56787856) j ->
        nth j (inbound w) ShortRead <> Got4 0x56787856 ->
        fst (imx_download fopen file addr w) = Some (-1))
  /\ (exists r,
        fst (imx_download fopen file addr w) = Some r /\ (r = 0 \/ r = -1))
  /\ (synced s = true ->
      (fst (imx_download fopen file addr w) <> Some 0 ->
         fst (cmd_download fopen strtoul file a2 s k w) = (Returned 0, s))
      /\ (fst (imx_download fopen file addr w) = Some 0 ->
          cmd_download fopen strtoul file a2 s k w =
            k (mk_session true addr) (snd (imx_download fopen file addr w))))
  /\ (synced s = false ->
      (fst (imx_sync w) <> 0 ->
         fst (cmd_download fopen strtoul file a2 s k w) = (Returned 0, s))
      /\ (fst (imx_sync w) = 0 ->
          cmd_download fopen strtoul file a2 s k w =
            cmd_download fopen strtoul file a2 (mk_session true (entry s)) k
                         (snd (imx_sync w)))).
Proof.
  cbv zeta. split; [| split; [| split; [| split]]].
  - intros Hnone. unfold imx_download. rewrite Hnone. split; reflexivity.
  - intros content j Hopen Hsize Hj Hacks Hbad.
    apply (imx_download_fails_at fopen file content _ Hopen Hsize w j);
      assumption.
  - destruct (imx_download_total fopen file (u32 (strtoul a2)) w)
      as (r & w' & Hr & Hcases).
    exists r. rewrite Hr. split; [reflexivity | exact Hcases].
  - intros Hsynced. unfold cmd_download, sync_first. rewrite Hsynced.
    unfold bind. change (negb true) with false. cbv beta iota zeta.
    destruct (imx_download_total fopen file (u32 (strtoul a2)) w)
      as (r & w' & Hr & Hcases).
    rewrite Hr. simpl fst. simpl snd. split.
    + intros Hne. destruct Hcases as [-> | ->]; [congruence |].
      destruct s as [sy en]. simpl in Hsynced. subst sy. reflexivity.
    + intros Heq. inversion Heq; subst r. simpl. reflexivity.
  - intros Hunsynced. split.
    + intros Hne. unfold cmd_download, sync_first. rewrite Hunsynced.
      unfold bind at 1. change (negb false) with true. cbv beta iota.
      destruct (imx_sync w) as [r w1]. simpl in Hne.
      apply Z.eqb_neq in Hne. rewrite Hne. reflexivity.
    + intros Heq. unfold cmd_download at 1, sync_first at 1.
      rewrite Hunsynced. unfold bind at 1. change (negb false) with true.
      cbv beta iota.
      destruct (imx_sync w) as [r w1]. simpl in Heq. subst r. reflexivity.
Qed.

Lemma download_failure_keeps_entry_witness :
  fst (cmd_download (one_file "img.bin" (repeat 7 4100)) Libc.strtoul
         "img.bin" "0xC0000000" (mk_session true 0x1234)
         (fun s => ret (Returned 0, s))
         (fresh [Got4 0x56787856; ShortRead]))
    = (Returned 0, mk_session true 0x1234)
  /\ fst (cmd_download (one_file "img.bin" (repeat 7 4100)) Libc.strtoul
            "img.bin" "0xC0000000" (mk_session true 0x1234)
            (fun s => ret (Returned 0, s))
            (fresh [Got4 0x56787856; Got4 0x56787856]))
     = (Returned 0, mk_session true 0xC0000000).
Proof.
  destruct (download_failure_keeps_entry
              (one_file "img.bin" (repeat 7 4100)) Libc.strtoul
              "img.bin" "0xC0000000" (mk_session true 0x1234)
              (fun s => ret (Returned 0, s))
              (fresh [Got4 0x56787856; ShortRead]))
    as (_ & Hfail & _ & Hsynced & _).
  destruct (Hsynced eq_refl) as [Hkeep _].
  split.
  - apply Hkeep.
    rewrite (Hfail (repeat 7 4100) 1%nat); try reflexivity; try discriminate.
    vm_compute. reflexivity.
  - destruct (download_failure_keeps_entry
                (one_file "img.bin" (repeat 7 4100)) Libc.strtoul
                "img.bin" "0xC0000000" (mk_session true 0x1234)
                (fun s => ret (Returned 0, s))
                (fresh [Got4 0x56787856; Got4 0x56787856]))
      as (_ & _ & _ & Hsynced' & _).
    destruct (Hsynced' eq_refl) as [_ Hset].
    rewrite Hset; vm_compute; reflexivity.
Defined.

Section Dispatch.

Variable fopen : string -> option (list Z).
Variable strtoul : string -> Z.

(** How the run command resolves its address: [argc < i+2], or an argument
  that [strtoul] turns into 0, means the remembered entry, and then the
  argument is not consumed. *)
Lemma command_loop_run (rest : list string) (s : session) (w : world) :
command_loop fopen strtoul ("run"%string :: rest) s w =
  match rest with
  | [] => cmd_run (entry s) s (command_loop fopen strtoul rest) w
  | a1 :: rest' =>
      if u32 (strtoul a1) =? 0
      then cmd_run (entry s) s (command_loop fopen strtoul rest) w
      else cmd_run (u32 (strtoul a1)) s (command_loop fopen strtoul rest') w
  end.
Proof.
destruct rest as [| a1 rest']; simpl; [reflexivity |].
destruct (u32 (strtoul a1) =? 0); reflexivity.
Qed.

Lemma command_loop_download (file a : string) (rest : list string)
    (s : session) (w : world) :
command_loop fopen strtoul ("download"%string :: file :: a :: rest) s w =
  cmd_download fopen strtoul file a s (command_loop fopen strtoul rest) w.
Proof. reflexivity. Qed.

Lemma cmd_run_no_address (s : session) (k : session -> IO result)
    (w : world) :
cmd_run 0 s k w =
  (Returned 0, s,
   mk_world (inbound w) (wire w) (console w ++ [NoAddressSpecified])).
Proof. reflexivity. Qed.

(** The continuation of a download only ever sees a session whose entry is
  the address just downloaded to. *)
Lemma cmd_download_ext (file a : string) (s : session)
    (k k' : session -> IO result) (w : world) :
(forall s' w', entry s' = u32 (strtoul a) -> k s' w' = k' s' w') ->
cmd_download fopen strtoul file a s k w =
cmd_download fopen strtoul file a s k' w.
Proof.
intros Hk. unfold cmd_download, sync_first, bind.
destruct (negb (synced s)).
- destruct (imx_sync w) as [r w1].
  destruct (negb (r =? 0)); [reflexivity |].
  destruct (imx_download fopen file (u32 (strtoul a)) w1) as [[r' |] w2];
    [| reflexivity].
  destruct (negb (r' =? 0)); [reflexivity |]. apply Hk. reflexivity.
- destruct (imx_download fopen file (u32 (strtoul a)) w) as [[r' |] w2];
    [| reflexivity].
  destruct (negb (r' =? 0)); [reflexivity |]. apply Hk. reflexivity.
Qed.

Lemma run_sentinel_same_as_explicit (rest : list string) (a : string)
    (s : session) (w : world) :
match rest with
| [] => True
| t :: _ => u32 (strtoul t) = 0
end ->
u32 (strtoul a) = entry s ->
command_loop fopen strtoul ("run"%string :: rest) s w =
command_loop fopen strtoul ("run"%string :: a :: rest) s w.
Proof.
intros Hrest Ha. rewrite !command_loop_run, Ha.
assert (E : command_loop fopen strtoul ("run"%string :: rest) s w =
            cmd_run (entry s) s (command_loop fopen strtoul rest) w).
{ rewrite command_loop_run. destruct rest as [| t rest'];
    [reflexivity |]. rewrite Hrest. reflexivity. }
rewrite command_loop_run in E. rewrite E.
destruct (Z.eqb_spec (entry s) 0) as [H0 | Hn0]; [| reflexivity].
rewrite H0. rewrite !cmd_run_no_address. reflexivity.
Qed.

End Dispatch.

(** ** Run and the remembered entry address *)

(** C8. Run given no address (no argument, or one that parses to the
    sentinel 0) uses the entry remembered from the last successful
    download. While that is still 0, as it is when [main] starts and
    until a download succeeds, the command prints that no address was
    specified and leaves the loop without touching the port. Otherwise it
    does exactly what run with that address spelled out does: the same
    [imx_run] call on the same port; in particular download followed by
    run behaves as download followed by run at the download address. *)
Theorem run_sentinel_uses_entry
        (fopen : string -> option (list Z)) (strtoul : string -> Z)
        (port_opens : string -> bool)
        (s : session) (rest : list string) (w : world) :
  match rest with
  | [] => True
  | t :: _ => u32 (strtoul t) = 0
  end ->
  (entry s = 0 ->
     command_loop fopen strtoul ("run"%string :: rest) s w =
       (Returned 0, s,
        mk_world (inbound w) (wire w) (console w ++ [NoAddressSpecified])))
  /\ (forall prog,
        port_opens DEFAULT_PORT = true ->
        main fopen strtoul port_opens prog ("run"%string :: rest) w =
          (Returned 0, mk_session false 0,
           mk_world (inbound w) (wire w)
                    (console w ++ [NoAddressSpecified])))
  /\ (forall a,
        u32 (strtoul a) = entry s ->
        command_loop fopen strtoul ("run"%string :: rest) s w =
        command_loop fopen strtoul ("run"%string :: a :: rest) s w)
  /\ (forall file a,
        command_loop fopen strtoul
          ("download"%string :: file :: a :: "run"%string :: rest) s w =
        command_loop fopen strtoul
          ("download"%string :: file :: a :: "run"%string :: a :: rest) s w)
  /\ (entry s <> 0 ->
      command_loop fopen strtoul ("run"%string :: rest) s w =
        cmd_run (entry s) s (command_loop fopen strtoul rest) w
      /\ exists tail,
           wire (snd (command_loop fopen strtoul ("run"%string :: rest) s w)) =
             wire (snd (imx_run (entry s) w)) ++ tail).
Proof.
  intros Hrest.
  assert (E : forall s' w',
             command_loop fopen strtoul ("run"%string :: rest) s' w' =
             cmd_run (entry s') s' (command_loop fopen strtoul rest) w').
  { intros s' w'. rewrite command_loop_run.
    destruct rest as [| t rest']; [reflexivity |].
    rewrite Hrest. reflexivity. }
  split; [| split; [| split; [| split]]].
  - intros H0. rewrite E, H0. apply cmd_run_no_address.
  - intros prog Hport. unfold main.
    change ("run" =? "-p")%string with false. cbv iota.
    unfold open_and_run. rewrite Hport. change (negb true) with false.
    cbv iota.
    rewrite E. apply cmd_run_no_address.
  - intros a Ha. apply run_sentinel_same_as_explicit; assumption.
  - intros file a. rewrite !command_loop_download.
    apply cmd_download_ext. intros s' w' Hs'.
    apply run_sentinel_same_as_explicit; [assumption | congruence].
  - intros Hne. split; [apply E |].
    rewrite E. unfold cmd_run, bind.
    apply Z.eqb_neq in Hne. rewrite Hne.
    destruct (imx_run (entry s) w) as [r w1]. simpl snd.
    destruct (negb (r =? 0)).
    + exists []. rewrite app_nil_r. reflexivity.
    + apply (appends_wire (command_loop fopen strtoul rest s) w1).
      apply appends_command_loop.
Qed.

Lemma run_sentinel_uses_entry_witness :
  main (one_file "img.bin" [1; 2; 3]) Libc.strtoul any_port "sbm"
       ["run"%string; "setup"%string] (fresh []) =
    (Returned 0, mk_session false 0, mk_world [] [] [NoAddressSpecified])
  /\ command_loop (one_file "img.bin" [1; 2; 3]) Libc.strtoul
       ["download"%string; "img.bin"%string; "0xC0000000"%string;
        "run"%string; "setup"%string]
       (mk_session true 0) (fresh [Got4 0x56787856]) =
     command_loop (one_file "img.bin" [1; 2; 3]) Libc.strtoul
       ["download"%string; "img.bin"%string; "0xC0000000"%string;
        "run"%string; "0xC0000000"%string; "setup"%string]
       (mk_session true 0) (fresh [Got4 0x56787856]).
Proof.
  split.
  - destruct (run_sentinel_uses_entry (one_file "img.bin" [1; 2; 3])
                Libc.strtoul any_port (mk_session false 0)
                ["setup"%string] (fresh []) eq_refl) as (_ & Hmain & _).
    apply Hmain. reflexivity.
  - destruct (run_sentinel_uses_entry (one_file "img.bin" [1; 2; 3])
                Libc.strtoul any_port (mk_session true 0)
                ["setup"%string] (fresh [Got4 0x56787856]) eq_refl)
      as (_ & _ & _ & Hdl & _).
    apply Hdl.
Defined.

(** ** Run and synchronization *)

Lemma imx_run_starts (addr : Z) (w : world) :
  exists t,
    wire (snd (imx_run addr w)) =
      wire w ++ Sent (packet_bytes (run_packet addr))
             :: Read4 (next_read w) :: t.
Proof.
  unfold imx_run, bind, printf, write, read4, ret, next_read. simpl.
  destruct (inbound w) as [| [v |] rest]; simpl; flatten_logs;
    try (exists []; reflexivity).
  destruct (v =? 0x56787856); simpl; flatten_logs;
    [| exists []; reflexivity].
  destruct rest as [| [v2 |] rest']; simpl; flatten_logs;
    try (eexists; reflexivity).
  destruct ((v2 =? 0x08888888) || (v2 =? 0x88888888)); simpl; flatten_logs;
    eexists; reflexivity.
Qed.

Lemma cmd_run_starts (addr : Z) (s : session) (k : session -> IO result)
      (w : world) :
  addr <> 0 ->
  (forall s', appends (k s')) ->
  exists tail,
    wire (snd (cmd_run addr s k w)) =
      wire w ++ Sent (packet_bytes (run_packet addr))
             :: Read4 (next_read w) :: tail.
Proof.
  intros Haddr Hk. unfold cmd_run, bind. apply Z.eqb_neq in Haddr.
  rewrite Haddr. destruct (imx_run_starts addr w) as [t Ht].
  destruct (imx_run addr w) as [r w1]. simpl in Ht.
  destruct (negb (r =? 0)).
  - simpl. rewrite Ht. eauto.
  - destruct (appends_wire (k s) w1 (Hk s)) as [t' Ht'].
    rewrite Ht', Ht. rewrite <- app_assoc. simpl. eauto.
Qed.

Lemma sync_first_starts (s : session) (k : session -> IO result) (w : world) :
  synced s = false ->
  (forall s', appends (k s')) ->
  exists tail,
    wire (snd (sync_first s k w)) =
      wire w ++ Sent (packet_bytes sync_packet) :: Read4 (next_read w) :: tail.
Proof.
  intros Hs Hk. unfold sync_first. rewrite Hs.
  change (negb false) with true. cbv iota. unfold bind at 1.
  assert (Hsync : wire (snd (imx_sync w)) =
                  wire w ++ [Sent (packet_bytes sync_packet);
                             Read4 (next_read w)]).
  { unfold imx_sync, bind, printf, write, read4, ret, next_read. simpl.
    destruct (inbound w) as [| [v |] rest]; simpl; flatten_logs;
      try reflexivity.
    destruct (v =? 0xf0f0f0f0); simpl; flatten_logs; reflexivity. }
  destruct (imx_sync w) as [r w1]. simpl in Hsync.
  destruct (negb (r =? 0)).
  - simpl. rewrite Hsync. simpl. eauto.
  - destruct (appends_wire (k (mk_session true (entry s))) w1 (Hk _))
      as [t' Ht'].
    rewrite Ht', Hsync. rewrite <- app_assoc. simpl. eauto.
Qed.

(** C3, as the code has it. The run command performs no implicit sync (the
    block that would do it is commented out in [main]): with an explicit
    non-zero address the first thing it does on the port, whatever
    [synced] is, is to write run's own DOWNLOAD-opcode packet and read its
    answer; a successful run hands the session on unchanged, still
    unsynced if it was, and a failed one leaves the loop with the session
    unchanged. For no form of the run command is the first port activity
    a SYNC exchange: it is none at all (no address) or that packet. The
    implicit sync is what set, download, setup and baud start with when
    the session is unsynced. *)
Theorem run_dispatch_does_not_sync
        (fopen : string -> option (list Z)) (strtoul : string -> Z)
        (s : session) (a : string) (rest : list string) (w : world) :
  u32 (strtoul a) <> 0 ->
  let addr := u32 (strtoul a) in
  let loop := command_loop fopen strtoul in
  (exists tail,
     wire (snd (loop ("run"%string :: a :: rest) s w)) =
       wire w
       ++ Sent ([0x04; 0x04] ++ be32 addr ++ [0] ++ be32 0 ++ be32 0
                ++ [0xaa])
       :: Read4 (next_read w) :: tail)
  /\ (fst (imx_run addr w) = 0 ->
      loop ("run"%string :: a :: rest) s w =
        loop rest s (snd (imx_run addr w)))
  /\ (fst (imx_run addr w) <> 0 ->
      fst (loop ("run"%string :: a :: rest) s w) = (Returned 0, s))
  /\ (forall args,
        exists tail,
          wire (snd (loop ("run"%string :: args) s w)) = wire w ++ tail
          /\ (tail = []
              \/ exists addr' tail',
                   addr' <> 0
                   /\ tail = Sent (packet_bytes (run_packet addr'))
                             :: Read4 (next_read w) :: tail'))
  /\ (synced s = false ->
      forall args,
        args = "setup"%string :: rest
        \/ args = "baud"%string :: rest
        \/ (exists a1 a2 a3, args = "set"%string :: a1 :: a2 :: a3 :: rest)
        \/ (exists file a1, args = "download"%string :: file :: a1 :: rest) ->
        exists tail,
          wire (snd (loop args s w)) =
            wire w
            ++ Sent [0x05; 0x05; 0; 0; 0; 0; 0; 0; 0; 0; 0; 0; 0; 0; 0; 0]
            :: Read4 (next_read w) :: tail).
Proof.
  intros Haddr addr loop. subst addr.
  assert (Hk : forall l s', appends (loop l s'))
    by (intros l s'; apply appends_command_loop).
  assert (E : loop ("run"%string :: a :: rest) s w =
              cmd_run (u32 (strtoul a)) s (loop rest) w).
  { unfold loop. rewrite command_loop_run.
    apply Z.eqb_neq in Haddr. rewrite Haddr. reflexivity. }
  split; [| split; [| split; [| split]]].
  - rewrite E. rewrite <- run_packet_bytes.
    apply cmd_run_starts; [assumption | apply Hk].
  - intros Hok. rewrite E. unfold cmd_run, bind.
    apply Z.eqb_neq in Haddr. rewrite Haddr.
    destruct (imx_run (u32 (strtoul a)) w) as [r w1]. simpl in Hok. subst r. reflexivity.
  - intros Hbad. rewrite E. unfold cmd_run, bind.
    apply Z.eqb_neq in Haddr. rewrite Haddr.
    destruct (imx_run (u32 (strtoul a)) w) as [r w1]. simpl in Hbad.
    apply Z.eqb_neq in Hbad. rewrite Hbad. reflexivity.
  - intros args.
    assert (Hcases : exists addr' l,
               loop ("run"%string :: args) s w = cmd_run addr' s (loop l) w).
    { unfold loop. rewrite command_loop_run.
      destruct args as [| a1 args']; [eauto |].
      destruct (u32 (strtoul a1) =? 0); eauto. }
    destruct Hcases as (addr' & l & ->).
    destruct (Z.eq_dec addr' 0) as [-> | Hne].
    + rewrite cmd_run_no_address. simpl. exists [].
      rewrite app_nil_r. split; [reflexivity | left; reflexivity].
    + destruct (cmd_run_starts addr' s (loop l) w Hne (Hk l)) as [t Ht].
      eexists. split; [exact Ht |]. right. eauto.
  - intros Hs args Hargs. rewrite <- sync_packet_bytes.
    destruct Hargs as [-> | [-> | [(a1 & a2 & a3 & ->) | (file & a1 & ->)]]].
    + apply sync_first_starts; [assumption |]. intros s'. unfold appends.
      repeat first [ adds_step ltac:(exact I) | apply appends_break
                   | apply Hk ].
    + simpl. apply sync_first_starts; [assumption |]. intros s'.
      destruct rest as [| a1 rest'].
      * apply appends_cmd_baud. apply Hk.
      * cbv zeta. destruct (u32 (strtoul a1) =? 0);
          apply appends_cmd_baud; apply Hk.
    + apply sync_first_starts; [assumption |]. intros s'. unfold appends.
      repeat first [ adds_step ltac:(exact I) | apply appends_break
                   | apply Hk ].
    + apply sync_first_starts; [assumption |]. intros s'. unfold appends.
      repeat first [ adds_step ltac:(exact I) | apply appends_break
                   | apply Hk | apply appends_imx_download ].
Qed.

Lemma run_dispatch_does_not_sync_witness :
  command_loop no_files Libc.strtoul
    ["run"%string; "0xC0000000"%string; "sync"%string]
    (mk_session false 0) (fresh [Got4 0x56787856; Got4 0x88888888]) =
  command_loop no_files Libc.strtoul ["sync"%string] (mk_session false 0)
    (snd (imx_run 0xC0000000 (fresh [Got4 0x56787856; Got4 0x88888888]))).
Proof.
  destruct (run_dispatch_does_not_sync no_files Libc.strtoul
              (mk_session false 0) "0xC0000000" ["sync"%string]
              (fresh [Got4 0x56787856; Got4 0x88888888]))
    as (_ & Hok & _).
  - vm_compute. discriminate.
  - apply Hok. reflexivity.
Defined.

(** C3 as stated fails: [main] given only a run command, on a fresh and
    therefore unsynced session, goes straight to run's exchange. Nothing
    is sent before the DOWNLOAD-opcode packet, no synchronization is
    announced, the run succeeds and the session ends unsynced. *)
Lemma run_executes_unsynced :
  main no_files Libc.strtoul any_port "sbm"
       ["run"%string; "0xC0000000"%string]
       (fresh [Got4 0x56787856; Got4 0x88888888]) =
    (Returned 0, mk_session false 0,
     mk_world []
       [Sent [0x04; 0x04; 0xC0; 0; 0; 0; 0; 0; 0; 0; 0; 0; 0; 0; 0; 0xaa];
        Read4 (Got4 0x56787856);
        Sent [0x05; 0x05; 0; 0; 0; 0; 0; 0; 0; 0; 0; 0; 0; 0; 0; 0];
        Read4 (Got4 0x88888888)]
       [Calling 0xC0000000; Ok])
  /\ synced (snd (fst (main no_files Libc.strtoul any_port "sbm"
                         ["run"%string; "0xC0000000"%string]
                         (fresh [Got4 0x56787856; Got4 0x88888888]))))
     = false
  /\ ~ In Synchronizing
         (console (snd (main no_files Libc.strtoul any_port "sbm"
                          ["run"%string; "0xC0000000"%string]
                          (fresh [Got4 0x56787856; Got4 0x88888888])))).
Proof.
  split; [reflexivity |]. split; [reflexivity |].
  vm_compute. intros [H | [H | H]]; [discriminate H | discriminate H | exact H].
Qed.

(** ** The fuel of the download loop is never exhausted *)

Section Returns.

Variable fopen : string -> option (list Z).
Variable strtoul : string -> Z.

Lemma returns_bind {A : Type} (m : IO A) (k : A -> IO result) :
  (forall a, returns (k a)) -> returns (bind m k).
Proof.
  intros Hk w. unfold bind. destruct (m w) as [a w1]. apply Hk.
Qed.

Lemma returns_break (s : session) : returns (break s).
Proof. intros w. discriminate. Qed.

Lemma returns_print_break (m : message) (s : session) :
  returns (printf m ;; break s).
Proof. intros w. discriminate. Qed.

Lemma returns_if (b : bool) (m1 m2 : IO result) :
  returns m1 -> returns m2 -> returns (if b then m1 else m2).
Proof. destruct b; auto. Qed.

Lemma returns_sync_first (s : session) (k : session -> IO result) :
  (forall s', returns (k s')) -> returns (sync_first s k).
Proof.
  intros Hk. unfold sync_first. apply returns_if; [| apply Hk].
  apply returns_bind. intros r.
  apply returns_if; [apply returns_print_break | apply Hk].
Qed.

Lemma returns_cmd_download (file a2 : string) (s : session)
      (k : session -> IO result) :
  (forall s', returns (k s')) ->
  returns (cmd_download fopen strtoul file a2 s k).
Proof.
  intros Hk. unfold cmd_download. apply returns_sync_first. intros s' w.
  cbv zeta. unfold bind at 1.
  destruct (imx_download_total fopen file (u32 (strtoul a2)) w)
    as (r & w1 & Hr & _).
  rewrite Hr. apply returns_if; [apply returns_print_break | apply Hk].
Qed.

Lemma returns_cmd_run (addr : Z) (s : session) (k : session -> IO result) :
  (forall s', returns (k s')) -> returns (cmd_run addr s k).
Proof.
  intros Hk. unfold cmd_run. apply returns_if; [apply returns_print_break |].
  apply returns_bind. intros r.
  apply returns_if; [apply returns_print_break | apply Hk].
Qed.

Lemma returns_cmd_baud (baud : Z) (s : session) (k : session -> IO result) :
  (forall s', returns (k s')) -> returns (cmd_baud baud s k).
Proof.
  intros Hk. unfold cmd_baud. apply returns_bind. intros r.
  apply returns_if; [apply returns_print_break | apply Hk].
Qed.

Lemma returns_command_loop_bounded (n : nat) :
  forall args s,
    (List.length args <= n)%nat ->
    returns (command_loop fopen strtoul args s).
Proof.
  induction n as [| n IH]; intros args s Hlen.
  - destruct args; [| simpl in Hlen; lia]. intros w. discriminate.
  - destruct args as [| cmd rest]; [intros w; discriminate |].
    simpl in Hlen. simpl command_loop.
    destruct (cmd =? "set")%string.
    { destruct rest as [| a1 [| a2 [| a3 rest']]];
        try apply returns_print_break.
      unfold cmd_set. apply returns_sync_first. intros s'. cbv zeta.
      apply returns_bind. intros r.
      apply returns_if; [apply returns_print_break |].
      apply IH. simpl in Hlen |- *. lia. }
    destruct (cmd =? "download")%string.
    { destruct rest as [| a1 [| a2 rest']]; try apply returns_print_break.
      apply returns_cmd_download. intros s'. apply IH.
      simpl in Hlen |- *. lia. }
    destruct (cmd =? "sync")%string.
    { unfold cmd_sync. apply returns_bind. intros r.
      apply returns_if; [apply returns_print_break |]. apply IH. lia. }
    destruct (cmd =? "setup")%string.
    { unfold cmd_setup. apply returns_sync_first. intros s'.
      apply returns_bind. intros r.
      apply returns_if; [apply returns_print_break |]. apply IH. lia. }
    destruct (cmd =? "baud")%string.
    { apply returns_sync_first. intros s'.
      destruct rest as [| a1 rest'].
      - apply returns_cmd_baud. intros s''. apply IH. lia.
      - cbv zeta. destruct (u32 (strtoul a1) =? 0);
          apply returns_cmd_baud; intros s''; apply IH;
          simpl in Hlen |- *; lia. }
    destruct (cmd =? "run")%string.
    { destruct rest as [| a1 rest'].
      - apply returns_cmd_run. intros s'. apply IH. lia.
      - cbv zeta. destruct (u32 (strtoul a1) =? 0);
          apply returns_cmd_run; intros s'; apply IH;
          simpl in Hlen |- *; lia. }
    destruct (cmd =? "terminal")%string.
    { destruct rest as [| a1 rest']; [intros w; discriminate |].
      cbv zeta. destruct (u32 (strtoul a1) =? 0); intros w; discriminate. }
    apply returns_print_break.
Qed.

(** [main] returns an exit code or ends up relaying in the terminal. *)
Lemma main_returns_or_relays (port_opens : string -> bool) (prog : string)
      (args : list string) (w : world) :
  fst (fst (main fopen strtoul port_opens prog args w)) <> OutOfFuel.
Proof.
  assert (Hloop : forall l s, returns (command_loop fopen strtoul l s))
    by (intros l s;
        apply (returns_command_loop_bounded (List.length l)); lia).
  assert (Hopen : forall p l, returns (open_and_run fopen strtoul port_opens p l)).
  { intros p l. unfold open_and_run.
    destruct (negb (port_opens p)); [intros w'; discriminate | apply Hloop]. }
  unfold main. destruct args as [| a1 rest]; [discriminate |].
  destruct (a1 =? "-p")%string; [| apply Hopen].
  destruct rest as [| port_str rest']; [discriminate | apply Hopen].
Qed.

End Returns.

(** ** End to end *)

(** The scenario of the specification: sync, the divisor register, a
    download of a two-block image and run, against a device that
    acknowledges everything. *)
Example end_to_end :
  let r := main (one_file "img.bin" (repeat 7 4100)) Libc.strtoul any_port
                "sbm"
                ["sync"%string;
                 "set"%string; "0x1000A0A4"%string; "32"%string;
                 "9599"%string;
                 "download"%string; "img.bin"%string; "0xC0000000"%string;
                 "run"%string]
                (fresh [Got4 0xf0f0f0f0;
                        Got4 0x56787856; Got4 0x128a8a12;
                        Got4 0x56787856; Got4 0x56787856;
                        Got4 0x56787856; Got4 0x88888888]) in
  fst r = (Returned 0, mk_session true 0xC0000000)
  /\ inbound (snd r) = []
  /\ last (console (snd r)) Usage = Ok.
Proof. vm_compute. repeat split; reflexivity. Qed.

(** * Further properties of the code *)

(** Closes the cases of a response contract once the responses are known. *)
Ltac contract_tac :=
  rewrite ?flat_map_app; simpl; flatten_logs; rewrite ?app_nil_r;
  repeat split; intros;
  repeat match goal with
         | H : _ /\ _ |- _ => destruct H
         | H : Got4 _ = Got4 _ |- _ => inversion H; clear H; subst
         end;
  try discriminate; try reflexivity;
  try (left; reflexivity); try (right; reflexivity);
  try congruence; try (exfalso; tauto).

(** ** Set-register: the response contract *)

(** X1. With the ignore flag set, a register write of a legal width never
    fails: whatever the device answers, or does not answer, it returns 0,
    having written its one packet; it prints [Ok] when both magic words
    arrived and the ignored mark otherwise. *)
Theorem set_register_ignore_never_fails
        (addr len value ignore : Z) (w : world) :
  len = 8 \/ len = 16 \/ len = 32 ->
  ignore <> 0 ->
  let r := imx_set_register addr len value ignore w in
  fst r = 0
  /\ sent (wire (snd r)) =
       sent (wire w) ++ [packet_bytes (sreg_packet addr len value)]
  /\ console (snd r) =
       console w
       ++ [WritingRegister value len addr;
           if match next_read w, second_read w with
              | Got4 b, Got4 c => (b =? 0x56787856) && (c =? 0x128a8a12)
              | _, _ => false
              end
           then Ok else Ignored].
Proof.
  intros Hlen Hig. apply Z.eqb_neq in Hig. cbv zeta.
  unfold imx_set_register, bind, printf, write, read4, ret, next_read,
    second_read, sent.
  replace (negb (len =? 8) && negb (len =? 16) && negb (len =? 32))
    with false by (destruct Hlen as [-> | [-> | ->]]; reflexivity).
  rewrite Hig. simpl.
  destruct (inbound w) as [| [vb |] rest]; simpl;
    rewrite ?flat_map_app; simpl; flatten_logs; rewrite ?app_nil_r;
    try (repeat split; reflexivity).
  destruct rest as [| [vc |] rest']; simpl;
    rewrite ?flat_map_app; simpl; flatten_logs; rewrite ?app_nil_r;
    try (repeat split; reflexivity).
  destruct ((vb =? 0x56787856) && (vc =? 0x128a8a12)); simpl;
    rewrite ?flat_map_app; simpl; flatten_logs; rewrite ?app_nil_r;
    repeat split; reflexivity.
Qed.

Lemma set_register_ignore_never_fails_witness :
  fst (imx_set_register 0x1000A0A8 32 9999 1 (fresh [Got4 0x11111111])) = 0
  /\ console (snd (imx_set_register 0x1000A0A8 32 9999 1
                     (fresh [Got4 0x11111111]))) =
       [WritingRegister 9999 32 0x1000A0A8; Ignored].
Proof.
  destruct (set_register_ignore_never_fails 0x1000A0A8 32 9999 1
              (fresh [Got4 0x11111111])) as (H1 & _ & H3).
  - right; right; reflexivity.
  - discriminate.
  - split; [exact H1 | exact H3].
Defined.

(** X2. With the ignore flag clear, a register write of a legal width
    returns 0 exactly when the next two words are 0x56787856 and
    0x128a8a12. A short first read ends the exchange: the second read is
    not attempted (one response is consumed) and the timeout is
    reported; a short second read is a timeout as well; two full words
    that are not the magic pair are reported together as an illegal
    response. *)
Theorem set_register_strict_contract (addr len value : Z) (w : world) :
  len = 8 \/ len = 16 \/ len = 32 ->
  let r := imx_set_register addr len value 0 w in
  (fst r = 0 <->
   next_read w = Got4 0x56787856 /\ second_read w = Got4 0x128a8a12)
  /\ (fst r = 0 \/ fst r = -1)
  /\ (next_read w = ShortRead ->
      reads (wire (snd r)) = reads (wire w) ++ [ShortRead]
      /\ inbound (snd r) = tl (inbound w)
      /\ console (snd r) =
           console w ++ [WritingRegister value len addr; FailedTimeout])
  /\ (forall b, next_read w = Got4 b ->
      reads (wire (snd r)) = reads (wire w) ++ [Got4 b; second_read w]
      /\ inbound (snd r) = tl (tl (inbound w))
      /\ (second_read w = ShortRead ->
          console (snd r) =
            console w ++ [WritingRegister value len addr; FailedTimeout])
      /\ (forall c, second_read w = Got4 c ->
          ~ (b = 0x56787856 /\ c = 0x128a8a12) ->
          console (snd r) =
            console w ++ [WritingRegister value len addr;
                          FailedIllegalResponse2 b c])).
Proof.
  intros Hlen. cbv zeta.
  unfold imx_set_register, bind, printf, write, read4, ret, next_read,
    second_read, reads.
  replace (negb (len =? 8) && negb (len =? 16) && negb (len =? 32))
    with false by (destruct Hlen as [-> | [-> | ->]]; reflexivity).
  simpl.
  destruct (inbound w) as [| [vb |] rest]; simpl;
    [| destruct rest as [| [vc |] rest']; simpl;
       [| destruct (Z.eqb_spec vb 0x56787856) as [-> | Hb];
          [destruct (Z.eqb_spec vc 0x128a8a12) as [-> | Hc] |]; simpl |] |];
    contract_tac.
Qed.

Lemma set_register_strict_contract_witness :
  fst (imx_set_register 0x10000000 8 1 0
         (fresh [Got4 0x56787856; Got4 0x128a8a12])) = 0
  /\ inbound (snd (imx_set_register 0x10000000 8 1 0
                     (fresh [ShortRead; Got4 0x128a8a12]))) =
       [Got4 0x128a8a12].
Proof.
  split.
  - apply (proj1 (set_register_strict_contract 0x10000000 8 1
                    (fresh [Got4 0x56787856; Got4 0x128a8a12])
                    (or_introl eq_refl))).
    split; reflexivity.
  - destruct (set_register_strict_contract 0x10000000 8 1
                (fresh [ShortRead; Got4 0x128a8a12]) (or_introl eq_refl))
      as (_ & _ & Hshort & _).
    destruct (Hshort eq_refl) as (_ & Hin & _). exact Hin.
Defined.

(** ** Set-baud: the divisor *)

(** X3. The divisor that [imx_set_baud] sends is [baud/100 - 1] computed in
    unsigned 32-bit arithmetic, most significant byte first in the data
    field of the first packet written: for a rate of at least 100 that
    is the plain quotient less one, and for a rate below 100 the
    subtraction wraps and the device is sent 0xffffffff. *)
Theorem set_baud_divisor (baud : Z) (w : world) :
  0 <= baud < 2 ^ 32 ->
  let divisor := if baud <? 100 then 0xffffffff else baud / 100 - 1 in
  0 <= divisor < 2 ^ 32
  /\ exists rest,
       sent (wire (snd (imx_set_baud baud w))) =
         sent (wire w)
         ++ ([0x02; 0x02; 0x10; 0x00; 0xA0; 0xA4; 32; 0; 0; 0; 0]
             ++ be32 divisor ++ [0])
         :: rest.
Proof.
  intros Hbaud divisor.
  assert (Hdiv : u32 (baud / 100 - 1) = divisor).
  { unfold divisor, u32. destruct (Z.ltb_spec baud 100).
    - rewrite Z.div_small by lia. reflexivity.
    - apply Z.mod_small.
      assert (1 <= baud / 100) by (apply Z.div_le_lower_bound; lia).
      assert (baud / 100 <= baud) by (apply Z.div_le_upper_bound; lia).
      lia. }
  split.
  { rewrite <- Hdiv. apply u32_range. }
  unfold imx_set_baud, bind.
  destruct (printf (ChangingBaud baud) w) as [u w0] eqn:E0.
  assert (Hw0 : wire w0 = wire w) by (inversion E0; reflexivity).
  destruct (set_register_exchange 0x1000A0A4 (u32 (baud / 100 - 1)) 0 w0)
    as (t1 & Ht1 & _).
  destruct (imx_set_register 0x1000A0A4 32 (u32 (baud / 100 - 1)) 0 w0)
    as [r1 w1].
  destruct (set_register_exchange 0x1000A0A8 (10000 - 1) 1 w1)
    as (t2 & Ht2 & _).
  destruct (imx_set_register 0x1000A0A8 32 (10000 - 1) 1 w1) as [r2 w2].
  simpl in Ht1, Ht2 |- *. rewrite Ht2, Ht1, Hw0, Hdiv.
  rewrite sreg_packet_bytes. unfold sent.
  rewrite !flat_map_app. simpl. rewrite <- !app_assoc. simpl.
  eexists. reflexivity.
Qed.

Lemma set_baud_divisor_witness :
  exists rest,
    sent (wire (snd (imx_set_baud 50 (fresh [])))) =
      [0x02; 0x02; 0x10; 0x00; 0xA0; 0xA4; 32; 0; 0; 0; 0;
       0xff; 0xff; 0xff; 0xff; 0] :: rest.
Proof.
  destruct (set_baud_divisor 50 (fresh [])) as (_ & rest & H); [lia |].
  exists rest. exact H.
Defined.

(** ** Setup: the whole table goes out *)

Lemma set_register_sends_one (addr len value ignore : Z) (w : world) :
  len = 8 \/ len = 16 \/ len = 32 ->
  sent (wire (snd (imx_set_register addr len value ignore w))) =
    sent (wire w) ++ [packet_bytes (sreg_packet addr len value)].
Proof.
  intros Hlen.
  unfold imx_set_register, bind, printf, write, read4, ret, sent.
  replace (negb (len =? 8) && negb (len =? 16) && negb (len =? 32))
    with false by (destruct Hlen as [-> | [-> | ->]]; reflexivity).
  simpl.
  destruct (inbound w) as [| [vb |] rest]; simpl;
    [| destruct rest as [| [vc |] rest']; simpl;
       [| destruct ((vb =? 0x56787856) && (vc =? 0x128a8a12)) |] |];
    destruct (negb (ignore =? 0)); simpl;
    rewrite ?flat_map_app; simpl; flatten_logs; rewrite ?app_nil_r;
    reflexivity.
Qed.

Lemma replay_sends_table (table : list (Z * Z * Z * Z)) :
  Forall (fun e => snd (fst (fst e)) = 32) table ->
  forall w,
    sent (wire (snd (replay table w))) =
      sent (wire w) ++ map entry_packet table.
Proof.
  induction 1 as [| [[[addr len] value] ignore] table Hlen Htable IH];
    intros w; simpl.
  - rewrite app_nil_r. reflexivity.
  - simpl in Hlen. unfold bind.
    pose proof (set_register_sends_one addr len value ignore w
                  ltac:(right; right; exact Hlen)) as Hone.
    destruct (imx_set_register addr len value ignore w) as [r w1].
    simpl in Hone. rewrite IH, Hone, <- app_assoc. reflexivity.
Qed.

(** X4. [imx_setup_system] never stops early: whatever the device answers
    to each write, or if it answers nothing at all, the packets written
    are those of all 23 entries of the table, each once and in table
    order, and the function returns 0. *)
Theorem setup_sends_whole_table (w : world) :
  sent (wire (snd (imx_setup_system w))) =
    sent (wire w) ++ map entry_packet SetupSequence
  /\ List.length (map entry_packet SetupSequence) = 23%nat
  /\ fst (imx_setup_system w) = 0.
Proof.
  split; [| split; [reflexivity |]].
  - rewrite setup_is_replay. unfold bind, printf, ret. cbv beta iota.
    pose proof (replay_sends_table SetupSequence
                  ltac:(repeat constructor)
                  (mk_world (inbound w) (wire w)
                            (console w ++ [InitializingSDRAM]))) as H.
    destruct (replay SetupSequence _) as [u w1]. exact H.
  - unfold imx_setup_system, bind.
    repeat match goal with
           | |- context [let (_, _) := ?m ?x in _] => destruct (m x)
           end.
    reflexivity.
Qed.

(** ** Well-formed port activity *)

Lemma packet_bytes_wellformed (p : imx_packet) :
  packet_or_read (Sent (packet_bytes p)).
Proof.
  split; [reflexivity |].
  unfold packet_bytes, mem16, mem32. simpl.
  repeat constructor; apply byte_at_range.
Qed.

(** X5. Sync, set-register, setup and run put on the port nothing but
    whole packets, sixteen bytes each in [0, 256), and four-byte reads:
    none of them writes a partial packet or reconfigures the local
    port. *)
Theorem protocol_writes_whole_packets :
  (forall w, exists t,
      wire (snd (imx_sync w)) = wire w ++ t /\ Forall packet_or_read t)
  /\ (forall addr len value ignore w, exists t,
         wire (snd (imx_set_register addr len value ignore w)) = wire w ++ t
         /\ Forall packet_or_read t)
  /\ (forall w, exists t,
         wire (snd (imx_setup_system w)) = wire w ++ t
         /\ Forall packet_or_read t)
  /\ (forall addr w, exists t,
         wire (snd (imx_run addr w)) = wire w ++ t
         /\ Forall packet_or_read t).
Proof.
  assert (Hsync : adds packet_or_read (fun _ => True) imx_sync).
  { unfold imx_sync.
    adds_tac ltac:(first [exact I | apply packet_bytes_wellformed]). }
  assert (Hreg : forall addr len value ignore,
             adds packet_or_read (fun _ => True)
                  (imx_set_register addr len value ignore)).
  { intros. unfold imx_set_register.
    adds_tac ltac:(first [exact I | apply packet_bytes_wellformed]). }
  assert (Hloop : forall n, adds packet_or_read (fun _ => True)
                                 (refresh_loop n)).
  { induction n; simpl;
      repeat first [ adds_step ltac:(exact I) | apply Hreg | apply IHn ]. }
  assert (Hsetup : adds packet_or_read (fun _ => True) imx_setup_system).
  { unfold imx_setup_system.
    repeat first [ adds_step ltac:(exact I) | apply Hreg | apply Hloop ]. }
  assert (Hrun : forall addr,
             adds packet_or_read (fun _ => True) (imx_run addr)).
  { intros. unfold imx_run.
    adds_tac ltac:(first [exact I | apply packet_bytes_wellformed]). }
  repeat split; intros;
    match goal with
    | |- exists t, wire (snd (?m ?w)) = _ /\ _ =>
        let H := fresh in
        assert (H : adds packet_or_read (fun _ => True) m) by auto;
        destruct (H w) as (t & c & Ht & _ & HP & _); eauto
    end.
Qed.

(** ** Download: edge cases, integrity, failure *)

(** X6. An image of no bytes is a successful download that never touches
    the port: no header is written and no response consumed, and the
    download command then records the address as the entry, so that a
    later run without address jumps there. *)
Theorem download_empty_image
        (fopen : string -> option (list Z)) (strtoul : string -> Z)
        (file a2 : string) (s : session) (k : session -> IO result)
        (w : world) :
  fopen file = Some [] ->
  let addr := u32 (strtoul a2) in
  let w' := mk_world (inbound w) (wire w)
                     (console w ++ [Downloading file addr 0;
                                    DownloadComplete]) in
  imx_download fopen file addr w = (Some 0, w')
  /\ (synced s = true ->
      cmd_download fopen strtoul file a2 s k w = k (mk_session true addr) w').
Proof.
  intros Hopen. cbv zeta.
  assert (E : imx_download fopen file (u32 (strtoul a2)) w =
              (Some 0,
               mk_world (inbound w) (wire w)
                 (console w ++ [Downloading file (u32 (strtoul a2)) 0;
                                DownloadComplete]))).
  { unfold imx_download. rewrite Hopen.
    change (u32 (Z.of_nat (List.length (@nil Z)))) with 0.
    unfold bind, printf. cbv beta iota.
    rewrite download_loop_done by lia. simpl. flatten_logs. reflexivity. }
  split; [exact E |].
  intros Hs. unfold cmd_download, sync_first. rewrite Hs.
  unfold bind. change (negb true) with false. cbv beta iota zeta.
  rewrite E. reflexivity.
Qed.

Lemma download_empty_image_witness :
  command_loop (one_file "empty.bin" []) Libc.strtoul
    ["download"%string; "empty.bin"%string; "0xC0000000"%string]
    (mk_session true 0) (fresh []) =
  (Returned 0, mk_session true 0xC0000000,
   mk_world [] [] [Downloading "empty.bin" 0xC0000000 0; DownloadComplete]).
Proof.
  destruct (download_empty_image (one_file "empty.bin" []) Libc.strtoul
              "empty.bin" "0xC0000000" (mk_session true 0)
              (command_loop (one_file "empty.bin" []) Libc.strtoul [])
              (fresh []) eq_refl) as [_ H].
  exact (H eq_refl).
Defined.

Lemma firstn_add_skipn {A : Type} (a b : nat) (l : list A) :
  firstn (a + b) l = firstn a l ++ firstn b (skipn a l).
Proof.
  revert l. induction a as [| a IH]; intros [| x l]; simpl;
    try reflexivity.
  - rewrite firstn_nil. reflexivity.
  - rewrite IH. reflexivity.
Qed.

Lemma block_payload_chunk (content : list Z) (k : nat) :
  (k < block_count (Z.of_nat (List.length content)))%nat ->
  block_payload content k = firstn 4096 (skipn (4096 * k) content).
Proof.
  intros Hk. apply block_offset_lt_count in Hk.
  unfold block_payload, block_length, block_offset, CHUNK_SIZE in *.
  replace (Z.to_nat (4096 * Z.of_nat k)) with (4096 * k)%nat by lia.
  destruct (Z.le_gt_cases 4096 (Z.of_nat (List.length content)
                                - 4096 * Z.of_nat k)) as [Hfull | Hlast].
  - rewrite Z.min_l by lia. reflexivity.
  - rewrite Z.min_r by lia.
    assert (Hlen : List.length (skipn (4096 * k) content)
                   = Z.to_nat (Z.of_nat (List.length content)
                               - 4096 * Z.of_nat k)).
    { rewrite length_skipn. lia. }
    rewrite <- Hlen. rewrite firstn_all.
    symmetry. apply firstn_all2. lia.
Qed.

Lemma chunks_concat (content : list Z) (n : nat) :
  List.concat (map (fun k => firstn 4096 (skipn (4096 * k) content)) (seq 0 n)) =
    firstn (4096 * n) content.
Proof.
  induction n as [| n IH].
  - reflexivity.
  - rewrite seq_S, map_app, List.concat_app, IH. simpl List.concat.
    rewrite app_nil_r.
    replace (4096 * S n)%nat with (4096 * n + 4096)%nat by lia.
    rewrite firstn_add_skipn. reflexivity.
Qed.

Lemma sent_block_exchanges (content : list Z) (addr : Z) (ks : list nat) :
  sent (flat_map (block_exchange content addr) ks) =
    flat_map (fun k =>
                [download_header (u32 (addr + block_offset k))
                   (block_length (Z.of_nat (List.length content)) k);
                 block_payload content k]) ks.
Proof.
  induction ks as [| k ks IH]; [reflexivity |].
  unfold sent in *. simpl. rewrite IH. reflexivity.
Qed.

Lemma reads_block_exchanges (content : list Z) (addr : Z) (ks : list nat) :
  reads (flat_map (block_exchange content addr) ks) =
    repeat (Got4 0x56787856) (List.length ks).
Proof.
  induction ks as [| k ks IH]; [reflexivity |].
  unfold reads in *. simpl. rewrite IH. reflexivity.
Qed.

(** X7. A successful download delivers the image intact: what is written
    to the port is, block after block, the sixteen-byte header and then
    the payload, the payloads put end to end are exactly the bytes of
    the file, and one response is read per block. *)
Theorem download_delivers_image
        (fopen : string -> option (list Z)) (file : string)
        (content : list Z) (addr : Z) (w : world) (rest : list read_result) :
  fopen file = Some content ->
  Z.of_nat (List.length content) < 2 ^ 32 ->
  inbound w =
    repeat (Got4 0x56787856) (block_count (Z.of_nat (List.length content)))
    ++ rest ->
  let total := Z.of_nat (List.length content) in
  let n := block_count total in
  let w' := snd (imx_download fopen file addr w) in
  sent (wire w') =
    sent (wire w)
    ++ flat_map (fun k =>
                   [download_header (u32 (addr + block_offset k))
                      (block_length total k);
                    block_payload content k]) (seq 0 n)
  /\ List.concat (map (block_payload content) (seq 0 n)) = content
  /\ reads (wire w') = reads (wire w) ++ repeat (Got4 0x56787856) n
  /\ inbound w' = rest.
Proof.
  intros Hopen Hsize Hin total n w'. unfold w'.
  rewrite (imx_download_succeeds fopen file content addr Hopen Hsize w rest
             Hin).
  simpl snd. simpl wire. simpl inbound.
  split; [| split; [| split; [| reflexivity]]].
  - unfold sent at 1. rewrite flat_map_app.
    fold (sent (wire w)).
    fold (sent (flat_map (block_exchange content addr) (seq 0 n))).
    rewrite sent_block_exchanges. reflexivity.
  - rewrite (map_ext_in (block_payload content)
               (fun k => firstn 4096 (skipn (4096 * k) content))).
    + rewrite chunks_concat. apply firstn_all2.
      pose proof (block_offset_ge_count total n ltac:(reflexivity)) as Hge.
      unfold block_offset, CHUNK_SIZE, total in Hge. lia.
    + intros k Hk. apply in_seq in Hk. apply block_payload_chunk.
      fold total. fold n. lia.
  - unfold reads at 1. rewrite flat_map_app.
    fold (reads (wire w)).
    fold (reads (flat_map (block_exchange content addr) (seq 0 n))).
    rewrite reads_block_exchanges, length_seq. reflexivity.
Qed.

Lemma download_delivers_image_witness :
  List.concat (map (block_payload (repeat 7 4100)) (seq 0 2)) = repeat 7 4100
  /\ inbound (snd (imx_download (one_file "img.bin" (repeat 7 4100))
                     "img.bin" 0xC0000000
                     (fresh [Got4 0x56787856; Got4 0x56787856;
                             Got4 0x88888888]))) = [Got4 0x88888888].
Proof.
  destruct (download_delivers_image
              (one_file "img.bin" (repeat 7 4100)) "img.bin" (repeat 7 4100)
              0xC0000000
              (fresh [Got4 0x56787856; Got4 0x56787856; Got4 0x88888888])
              [Got4 0x88888888])
    as (_ & Hcat & _ & Hin).
  - reflexivity.
  - vm_compute. reflexivity.
  - reflexivity.
  - split; [exact Hcat | exact Hin].
Defined.

Lemma tl_skipn {A : Type} (j : nat) (l : list A) :
  tl (skipn j l) = skipn (S j) l.
Proof.
  revert l. induction j as [| j IH]; intros [| x l]; try reflexivity.
  simpl skipn at 1. rewrite IH. reflexivity.
Qed.

(** X8. When the first [j] block headers are acknowledged and the answer
    to the header of block [j] is short or is not 0x56787856, the
    download stops right there with -1: blocks 0 to [j-1] have gone out
    whole, the header of block [j] has been written and its answer read,
    its payload and every later block are never written, the responses
    after the bad one are left unread, and the diagnostic names the
    offset, size and address of block [j], with the word received when
    there was one. *)
Theorem download_stops_at_bad_acknowledgment
        (fopen : string -> option (list Z)) (file : string)
        (content : list Z) (addr : Z) (w : world) (j : nat) :
  fopen file = Some content ->
  Z.of_nat (List.length content) < 2 ^ 32 ->
  (j < block_count (Z.of_nat (List.length content)))%nat ->
  firstn j (inbound w) = repeat (Got4 0x56787856) j ->
  nth j (inbound w) ShortRead <> Got4 0x56787856 ->
  let total := Z.of_nat (List.length content) in
  let bad := nth j (inbound w) ShortRead in
  imx_download fopen file addr w =
    (Some (-1),
     mk_world (skipn (S j) (inbound w))
       (wire w ++ flat_map (block_exchange content addr) (seq 0 j)
        ++ [Sent (download_header (u32 (addr + block_offset j))
                                  (block_length total j));
            Read4 bad])
       (console w ++ Downloading file addr total
        :: map (block_progress total) (seq 0 j)
        ++ [match bad with
            | ShortRead =>
                BlockTimedOut (block_offset j) (block_length total j)
                              (u32 (addr + block_offset j))
            | Got4 v =>
                BlockIllegalResponse (block_offset j) (block_length total j)
                                     (u32 (addr + block_offset j)) v
            end])).
Proof.
  intros Hopen Hsize Hj Hacks Hbad total bad.
  unfold imx_download. rewrite Hopen.
  rewrite u32_small by lia. unfold bind, printf. cbv beta iota.
  pose proof (block_count_le total ltac:(unfold total; lia)) as Hle.
  fold total.
  replace (Z.to_nat total) with (j + S (Z.to_nat total - S j))%nat
    by (fold total in Hj; lia).
  assert (Hin : inbound w = repeat (Got4 0x56787856) j
                            ++ skipn j (inbound w)).
  { rewrite <- Hacks. symmetry. apply firstn_skipn. }
  pose proof (download_rounds content addr j 0
                (S (Z.to_nat total - S j))
                (mk_world (inbound w) (wire w)
                          (console w ++ [Downloading file addr total]))
                (skipn j (inbound w)) ltac:(simpl; lia) Hin) as H.
  change (block_offset 0) with 0 in H.
  rewrite Z.min_r in H by lia. simpl skipn in H. simpl Nat.add in H.
  fold total in H. rewrite H.
  pose proof (block_offset_lt_count total j Hj) as Hlt.
  rewrite (Z.min_r total (block_offset j)) by lia.
  rewrite download_round_fails;
    [| assumption | rewrite next_read_skipn; assumption].
  rewrite next_read_skipn. simpl inbound. simpl wire. simpl console.
  rewrite tl_skipn. fold bad. unfold block_length.
  rewrite <- !app_assoc. reflexivity.
Qed.

Lemma download_stops_at_bad_acknowledgment_witness :
  imx_download (one_file "img.bin" (repeat 7 4100)) "img.bin" 0xC0000000
    (fresh [Got4 0x56787856; Got4 0xdeadbeef; Got4 0x56787856]) =
  (Some (-1),
   mk_world [Got4 0x56787856]
     (block_exchange (repeat 7 4100) 0xC0000000 0
      ++ [Sent [0x04; 0x04; 0xC0; 0x00; 0x10; 0x00; 0; 0; 0; 0; 4;
                0; 0; 0; 0; 0];
          Read4 (Got4 0xdeadbeef)])
     [Downloading "img.bin" 0xC0000000 4100;
      Progress 29 4096 4100 99;
      BlockIllegalResponse 4096 4 0xC0001000 0xdeadbeef]).
Proof.
  rewrite (download_stops_at_bad_acknowledgment
             (one_file "img.bin" (repeat 7 4100)) "img.bin" (repeat 7 4100)
             0xC0000000
             (fresh [Got4 0x56787856; Got4 0xdeadbeef; Got4 0x56787856])
             1%nat).
  - vm_compute. reflexivity.
  - reflexivity.
  - vm_compute. reflexivity.
  - vm_compute. lia.
  - reflexivity.
  - discriminate.
Defined.

(** X9. While [100 * S] fits in 32 bits the progress line printed after
    each block shows the true figures: the bytes sent so far [i], the
    total, [30 i / S] bar marks and [100 i / S] per cent; the last line
    printed before the completion message shows the full bar, [S] of [S]
    and 100 per cent. *)
Theorem download_progress_is_exact
        (fopen : string -> option (list Z)) (file : string)
        (content : list Z) (addr : Z) (w : world) (rest : list read_result) :
  fopen file = Some content ->
  0 < Z.of_nat (List.length content) ->
  100 * Z.of_nat (List.length content) < 2 ^ 32 ->
  inbound w =
    repeat (Got4 0x56787856) (block_count (Z.of_nat (List.length content)))
    ++ rest ->
  let total := Z.of_nat (List.length content) in
  let n := block_count total in
  let sent_after (k : nat) := Z.min total (CHUNK_SIZE * (Z.of_nat k + 1)) in
  console (snd (imx_download fopen file addr w)) =
    console w ++ Downloading file addr total
    :: map (fun k => Progress (30 * sent_after k / total) (sent_after k)
                              total (100 * sent_after k / total))
           (seq 0 n)
    ++ [DownloadComplete]
  /\ (forall k, (k < n)%nat -> 0 < sent_after k <= total)
  /\ sent_after (n - 1)%nat = total
  /\ 30 * sent_after (n - 1)%nat / total = 30
  /\ 100 * sent_after (n - 1)%nat / total = 100.
Proof.
  intros Hopen Hpos Hsize Hin total n sent_after.
  assert (Hlast : sent_after (n - 1)%nat = total).
  { unfold sent_after.
    pose proof (block_offset_ge_count total n ltac:(reflexivity)) as Hge.
    assert (Hn : (0 < n)%nat).
    { destruct n; [| lia]. unfold block_offset in Hge. lia. }
    unfold block_offset, CHUNK_SIZE in *. lia. }
  rewrite (imx_download_succeeds fopen file content addr Hopen
             ltac:(lia) w rest Hin).
  simpl snd. simpl console. fold total. fold n.
  split; [| split; [| split; [| split]]].
  - f_equal. f_equal. f_equal. apply map_ext_in. intros k Hk.
    apply in_seq in Hk.
    pose proof (block_offset_lt_count total k ltac:(fold n; lia)) as Hlt.
    unfold block_progress, block_length.
    assert (Hi : block_offset k + Z.min CHUNK_SIZE (total - block_offset k)
                 = sent_after k).
    { unfold sent_after, block_offset, CHUNK_SIZE. lia. }
    rewrite Hi.
    assert (Hr : 0 < sent_after k <= total).
    { unfold sent_after, block_offset, CHUNK_SIZE in *. lia. }
    rewrite !u32_small by lia.
    rewrite (Z.mul_comm (sent_after k) 30), (Z.mul_comm (sent_after k) 100).
    reflexivity.
  - intros k Hk.
    pose proof (block_offset_lt_count total k Hk) as Hlt.
    unfold sent_after, block_offset, CHUNK_SIZE in *. lia.
  - exact Hlast.
  - rewrite Hlast. apply Z.div_mul. lia.
  - rewrite Hlast. apply Z.div_mul. lia.
Qed.

Lemma download_progress_is_exact_witness :
  console (snd (imx_download (one_file "img.bin" (repeat 7 4100)) "img.bin"
                  0xC0000000 (fresh [Got4 0x56787856; Got4 0x56787856]))) =
    [Downloading "img.bin" 0xC0000000 4100;
     Progress 29 4096 4100 99; Progress 30 4100 4100 100;
     DownloadComplete].
Proof.
  destruct (download_progress_is_exact
              (one_file "img.bin" (repeat 7 4100)) "img.bin" (repeat 7 4100)
              0xC0000000 (fresh [Got4 0x56787856; Got4 0x56787856]) [])
    as (H & _).
  - reflexivity.
  - vm_compute. reflexivity.
  - vm_compute. reflexivity.
  - reflexivity.
  - rewrite H. vm_compute. reflexivity.
Defined.

(** ** The command loop: malformed commands, sync, the synced flag *)

(** X10. A command line that cannot be dispatched never touches the port,
    synced or not: an unknown command word, a set with fewer than three
    parameters and a download with fewer than two are reported and end
    the run before any implicit sync, with the session unchanged. *)
Theorem malformed_command_no_io
        (fopen : string -> option (list Z)) (strtoul : string -> Z)
        (s : session) (w : world) :
  let stop m := (Returned 0, s,
                 mk_world (inbound w) (wire w) (console w ++ [m])) in
  (forall cmd rest,
      ~ In cmd ["set"%string; "download"%string; "sync"%string;
                "setup"%string; "baud"%string; "run"%string;
                "terminal"%string] ->
      command_loop fopen strtoul (cmd :: rest) s w =
        stop (UnknownCommand cmd))
  /\ (forall rest,
        (List.length rest < 3)%nat ->
        command_loop fopen strtoul ("set"%string :: rest) s w =
          stop NotEnoughParameters)
  /\ (forall rest,
        (List.length rest < 2)%nat ->
        command_loop fopen strtoul ("download"%string :: rest) s w =
          stop NotEnoughParameters).
Proof.
  cbv zeta. split; [| split].
  - intros cmd rest Hcmd. simpl command_loop.
    repeat match goal with
           | |- context [(cmd =? ?c)%string] =>
               destruct (String.eqb_spec cmd c) as [-> | _];
               [exfalso; apply Hcmd; simpl; tauto |]
           end.
    reflexivity.
  - intros rest Hlen.
    destruct rest as [| a1 [| a2 [| a3 rest']]]; try reflexivity.
    simpl in Hlen. lia.
  - intros rest Hlen.
    destruct rest as [| a1 [| a2 rest']]; try reflexivity.
    simpl in Hlen. lia.
Qed.

Lemma malformed_command_no_io_witness :
  command_loop no_files Libc.strtoul
    ["set"%string; "0x10000000"%string; "32"%string]
    (mk_session false 0) (fresh [Got4 0xf0f0f0f0]) =
  (Returned 0, mk_session false 0,
   mk_world [Got4 0xf0f0f0f0] [] [NotEnoughParameters]).
Proof.
  destruct (malformed_command_no_io no_files Libc.strtoul
              (mk_session false 0) (fresh [Got4 0xf0f0f0f0]))
    as (_ & Hset & _).
  apply (Hset ["0x10000000"%string; "32"%string]). simpl. lia.
Defined.

Lemma imx_sync_cases (w : world) :
  (fst (imx_sync w) = 0
   /\ wire (snd (imx_sync w)) =
        wire w ++ [Sent (packet_bytes sync_packet); Read4 (Got4 0xf0f0f0f0)]
   /\ next_read w = Got4 0xf0f0f0f0)
  \/ (fst (imx_sync w) = -1 /\ next_read w <> Got4 0xf0f0f0f0).
Proof.
  unfold imx_sync, bind, printf, write, read4, ret, next_read. simpl.
  destruct (inbound w) as [| [v |] rest]; simpl;
    try (right; split; [reflexivity | discriminate]).
  destruct (Z.eqb_spec v 0xf0f0f0f0) as [-> | Hne]; simpl.
  - left. flatten_logs. repeat split; reflexivity.
  - right. split; [reflexivity | congruence].
Qed.

(** X11. The explicit sync command always performs the exchange, also on a
    session that is already synced. Acknowledged with 0xf0f0f0f0 it
    marks the session synced and the next command is dispatched;
    otherwise it reports the failure and the run ends there: the
    commands that follow are never executed and the session is left as
    it was. *)
Theorem sync_command_contract
        (fopen : string -> option (list Z)) (strtoul : string -> Z)
        (s : session) (rest : list string) (w : world) :
  let loop := command_loop fopen strtoul in
  (exists t, wire (snd (loop ("sync"%string :: rest) s w)) =
               wire w ++ Sent (packet_bytes sync_packet)
                      :: Read4 (next_read w) :: t)
  /\ (next_read w = Got4 0xf0f0f0f0 ->
      loop ("sync"%string :: rest) s w =
        loop rest (mk_session true (entry s)) (snd (imx_sync w)))
  /\ (next_read w <> Got4 0xf0f0f0f0 ->
      loop ("sync"%string :: rest) s w =
        (Returned 0, s,
         mk_world (inbound (snd (imx_sync w))) (wire (snd (imx_sync w)))
                  (console (snd (imx_sync w)) ++ [UnableToSync]))
      /\ wire (snd (imx_sync w)) =
           wire w ++ [Sent (packet_bytes sync_packet); Read4 (next_read w)]).
Proof.
  cbv zeta.
  assert (E : command_loop fopen strtoul ("sync"%string :: rest) s w =
              cmd_sync s (command_loop fopen strtoul rest) w)
    by reflexivity.
  assert (Hwire : wire (snd (imx_sync w)) =
                  wire w ++ [Sent (packet_bytes sync_packet);
                             Read4 (next_read w)]).
  { unfold imx_sync, bind, printf, write, read4, ret, next_read. simpl.
    destruct (inbound w) as [| [v |] rest0]; simpl; flatten_logs;
      try reflexivity.
    destruct (v =? 0xf0f0f0f0); simpl; flatten_logs; reflexivity. }
  rewrite E. unfold cmd_sync, bind.
  destruct (imx_sync_cases w) as [(H0 & _ & Hr) | (H1 & Hr)];
    destruct (imx_sync w) as [r w1]; simpl in *; subst r; simpl.
  - split; [| split; [reflexivity | congruence]].
    destruct (appends_wire (command_loop fopen strtoul rest
                              (mk_session true (entry s))) w1
                (appends_command_loop _ _ _ _)) as [t Ht].
    rewrite Ht, Hwire, <- app_assoc. simpl. eauto.
  - split; [| split; [congruence |]].
    + rewrite Hwire. simpl. eauto.
    + intros _. split; [reflexivity | exact Hwire].
Qed.

Lemma sync_command_contract_witness :
  command_loop no_files Libc.strtoul ["sync"%string; "setup"%string]
    (mk_session true 0) (fresh [Got4 0x0f0f0f0f]) =
  (Returned 0, mk_session true 0,
   mk_world []
     [Sent [0x05; 0x05; 0; 0; 0; 0; 0; 0; 0; 0; 0; 0; 0; 0; 0; 0];
      Read4 (Got4 0x0f0f0f0f)]
     [Synchronizing; FailedIllegalResponse 0x0f0f0f0f; UnableToSync]).
Proof.
  destruct (sync_command_contract no_files Libc.strtoul (mk_session true 0)
              ["setup"%string] (fresh [Got4 0x0f0f0f0f]))
    as (_ & _ & Hbad).
  destruct Hbad as [H _]; [discriminate |].
  rewrite H. reflexivity.
Defined.

Lemma sync_acknowledged_later (w w1 w' : world) :
  (exists t, wire w1 = wire w ++ t) ->
  sync_acknowledged w1 w' -> sync_acknowledged w w'.
Proof.
  intros [t Ht] (t1 & t2 & H). exists (t ++ t1), t2.
  rewrite H, Ht, <- !app_assoc. reflexivity.
Qed.

Lemma sync_acknowledged_then (w w1 w' : world) :
  sync_acknowledged w w1 ->
  (exists t, wire w' = wire w1 ++ t) -> sync_acknowledged w w'.
Proof.
  intros (t1 & t2 & H) [t Ht]. exists t1, (t2 ++ t).
  rewrite Ht, H, <- !app_assoc. reflexivity.
Qed.

Lemma keeps_sync_stop (st : status) (s : session) :
  keeps_sync s (ret (st, s)).
Proof. intros w. simpl. split; [auto | congruence]. Qed.

Lemma keeps_sync_print_break (m : message) (s : session) :
  keeps_sync s (printf m ;; break s).
Proof. intros w. simpl. split; [auto | congruence]. Qed.

Lemma keeps_sync_bind {A : Type} (m : IO A) (f : A -> IO result)
      (s : session) :
  appends m -> (forall a, keeps_sync s (f a)) -> keeps_sync s (bind m f).
Proof.
  intros Hm Hf w. unfold bind.
  pose proof (appends_wire m w Hm) as Hext.
  destruct (m w) as [a w1]. simpl in Hext.
  destruct (Hf a w1) as [Ha Hb]. split; [exact Ha |].
  intros Hs Hfin. apply (sync_acknowledged_later w w1); auto.
Qed.

Lemma keeps_sync_if (b : bool) (m1 m2 : IO result) (s : session) :
  keeps_sync s m1 -> keeps_sync s m2 -> keeps_sync s (if b then m1 else m2).
Proof. destruct b; auto. Qed.

Lemma keeps_sync_same (s s' : session) (m : IO result) :
  synced s = synced s' -> keeps_sync s' m -> keeps_sync s m.
Proof. intros E H w. rewrite E. apply H. Qed.

Lemma keeps_sync_cmd_sync (s : session) (k : session -> IO result) :
  (forall s', appends (k s')) ->
  (forall s', keeps_sync s' (k s')) ->
  keeps_sync s (cmd_sync s k).
Proof.
  intros Happ Hk w. unfold cmd_sync, bind.
  destruct (imx_sync_cases w) as [(H0 & Hw & _) | (H1 & _)];
    destruct (imx_sync w) as [r w1]; simpl in *; subst r; simpl.
  - destruct (Hk (mk_session true (entry s)) w1) as [Ha _].
    split; [intros _; apply Ha; reflexivity |].
    intros _ _.
    apply (sync_acknowledged_then w w1).
    + exists [], []. rewrite Hw. reflexivity.
    + apply appends_wire. apply Happ.
  - split; [auto | congruence].
Qed.

Lemma keeps_sync_sync_first (s : session) (k : session -> IO result) :
  (forall s', appends (k s')) ->
  (forall s', keeps_sync s' (k s')) ->
  keeps_sync s (sync_first s k).
Proof.
  intros Happ Hk. unfold sync_first.
  destruct (synced s) eqn:Hs; simpl negb; cbv iota; [apply Hk |].
  apply (keeps_sync_cmd_sync s k Happ Hk).
Qed.

Section SyncFlag.

Variable fopen : string -> option (list Z).
Variable strtoul : string -> Z.

Lemma keeps_sync_loop_bounded (n : nat) :
  forall args s,
    (List.length args <= n)%nat ->
    keeps_sync s (command_loop fopen strtoul args s).
Proof.
  induction n as [| n IH]; intros args s Hlen.
  - destruct args; [| simpl in Hlen; lia]. apply keeps_sync_stop.
  - destruct args as [| cmd rest]; [apply keeps_sync_stop |].
    simpl in Hlen. simpl command_loop.
    assert (Happ : forall l s', appends (command_loop fopen strtoul l s'))
      by (intros; apply appends_command_loop).
    destruct (cmd =? "set")%string.
    { destruct rest as [| a1 [| a2 [| a3 rest']]];
        try apply keeps_sync_print_break.
      unfold cmd_set. apply keeps_sync_sync_first.
      - intros s'. unfold appends.
        repeat first [ adds_step ltac:(exact I) | apply appends_break
                     | apply Happ ].
      - intros s'. cbv zeta.
        apply keeps_sync_bind; [apply appends_imx_set_register |].
        intros r. apply keeps_sync_if; [apply keeps_sync_print_break |].
        apply IH. simpl in Hlen |- *. lia. }
    destruct (cmd =? "download")%string.
    { destruct rest as [| a1 [| a2 rest']];
        try apply keeps_sync_print_break.
      unfold cmd_download. apply keeps_sync_sync_first.
      - intros s'. unfold appends.
        repeat first [ adds_step ltac:(exact I) | apply appends_break
                     | apply Happ | apply appends_imx_download ].
      - intros s'. cbv zeta.
        apply keeps_sync_bind; [apply appends_imx_download |].
        intros [r |]; [| apply keeps_sync_stop].
        apply keeps_sync_if; [apply keeps_sync_print_break |].
        apply (keeps_sync_same s' (mk_session (synced s')
                                              (u32 (strtoul a2))));
          [reflexivity |].
        apply IH. simpl in Hlen |- *. lia. }
    destruct (cmd =? "sync")%string.
    { apply keeps_sync_cmd_sync; [apply Happ |].
      intros s'. apply IH. lia. }
    destruct (cmd =? "setup")%string.
    { unfold cmd_setup. apply keeps_sync_sync_first.
      - intros s'. unfold appends.
        repeat first [ adds_step ltac:(exact I) | apply appends_break
                     | apply Happ ].
      - intros s'. apply keeps_sync_bind; [apply appends_imx_setup_system |].
        intros r. apply keeps_sync_if; [apply keeps_sync_print_break |].
        apply IH. lia. }
    destruct (cmd =? "baud")%string.
    { assert (Hbaud : forall b l s',
                 (List.length l <= n)%nat ->
                 keeps_sync s' (cmd_baud b s'
                                  (command_loop fopen strtoul l))).
      { intros b l s' Hl. unfold cmd_baud.
        apply keeps_sync_bind; [apply appends_imx_set_baud |].
        intros r. apply keeps_sync_if; [apply keeps_sync_print_break |].
        apply IH. exact Hl. }
      apply keeps_sync_sync_first.
      - intros s'. destruct rest as [| a1 rest'].
        + apply appends_cmd_baud. apply Happ.
        + cbv zeta. destruct (u32 (strtoul a1) =? 0);
            apply appends_cmd_baud; apply Happ.
      - intros s'. destruct rest as [| a1 rest'].
        + apply Hbaud. simpl. lia.
        + cbv zeta. destruct (u32 (strtoul a1) =? 0); apply Hbaud;
            simpl in Hlen |- *; lia. }
    destruct (cmd =? "run")%string.
    { assert (Hrun : forall addr l,
                 (List.length l <= n)%nat ->
                 keeps_sync s (cmd_run addr s
                                 (command_loop fopen strtoul l))).
      { intros addr l Hl. unfold cmd_run.
        apply keeps_sync_if; [apply keeps_sync_print_break |].
        apply keeps_sync_bind; [apply appends_imx_run |].
        intros r. apply keeps_sync_if; [apply keeps_sync_print_break |].
        apply IH. exact Hl. }
      destruct rest as [| a1 rest'].
      - apply Hrun. simpl. lia.
      - cbv zeta. destruct (u32 (strtoul a1) =? 0); apply Hrun;
          simpl in Hlen |- *; lia. }
    destruct (cmd =? "terminal")%string.
    { assert (Hterm : forall b, keeps_sync s (cmd_terminal b s)).
      { intros b w. simpl. split; [auto | congruence]. }
      destruct rest as [| a1 rest']; [apply Hterm |].
      cbv zeta. destruct (u32 (strtoul a1) =? 0); apply Hterm. }
    apply keeps_sync_print_break.
Qed.

End SyncFlag.

(** X12. The synced flag is a one-way latch driven by the device: through
    any sequence of commands a synced session stays synced, and a session
    that starts unsynced ends synced only if somewhere in the run a SYNC
    packet was written and answered with 0xf0f0f0f0. *)
Theorem synced_is_a_latch
        (fopen : string -> option (list Z)) (strtoul : string -> Z)
        (args : list string) (s : session) (w : world) :
  let r := command_loop fopen strtoul args s w in
  (synced s = true -> synced (snd (fst r)) = true)
  /\ (synced s = false -> synced (snd (fst r)) = true ->
      exists t1 t2,
        wire (snd r) =
          wire w ++ t1
          ++ [Sent [0x05; 0x05; 0; 0; 0; 0; 0; 0; 0; 0; 0; 0; 0; 0; 0; 0];
              Read4 (Got4 0xf0f0f0f0)]
          ++ t2).
Proof.
  cbv zeta. rewrite <- sync_packet_bytes.
  apply (keeps_sync_loop_bounded fopen strtoul (List.length args)). lia.
Qed.

Lemma synced_is_a_latch_witness :
  synced (snd (fst (command_loop (one_file "img.bin" [1; 2; 3]) Libc.strtoul
                      ["sync"%string; "run"%string; "0xC0000000"%string]
                      (mk_session true 0) (fresh [])))) = true.
Proof.
  apply (proj1 (synced_is_a_latch (one_file "img.bin" [1; 2; 3]) Libc.strtoul
                  ["sync"%string; "run"%string; "0xC0000000"%string]
                  (mk_session true 0) (fresh []))).
  reflexivity.
Defined.

(** ** The baud and set commands *)

Lemma imx_set_baud_ends (baud : Z) (w : world) :
  fst (imx_set_baud baud w) = 0
  /\ exists t, wire (snd (imx_set_baud baud w)) = wire w ++ t ++ [SetBaud baud].
Proof.
  unfold imx_set_baud, bind.
  destruct (printf (ChangingBaud baud) w) as [u w0] eqn:E0.
  assert (Hw0 : wire w0 = wire w) by (inversion E0; reflexivity).
  destruct (set_register_exchange 0x1000A0A4 (u32 (baud / 100 - 1)) 0 w0)
    as (t1 & Ht1 & _).
  destruct (imx_set_register 0x1000A0A4 32 (u32 (baud / 100 - 1)) 0 w0)
    as [r1 w1].
  destruct (set_register_exchange 0x1000A0A8 (10000 - 1) 1 w1)
    as (t2 & Ht2 & _).
  destruct (imx_set_register 0x1000A0A8 32 (10000 - 1) 1 w1) as [r2 w2].
  simpl in Ht1, Ht2 |- *. split; [reflexivity |].
  rewrite Ht2, Ht1, Hw0.
  exists ((Sent (packet_bytes (sreg_packet 0x1000A0A4 32
                                           (u32 (baud / 100 - 1)))) :: t1)
          ++ Sent (packet_bytes (sreg_packet 0x1000A0A8 32 (10000 - 1)))
          :: t2).
  rewrite <- !app_assoc. reflexivity.
Qed.

(** X13. The baud command given no rate, or a word that [strtoul] turns
    into 0, switches to the default high speed of 921600 and leaves that
    word to be dispatched as the next command; it behaves as the baud
    command given 921600. On a synced session the local port is
    reconfigured to the chosen rate whatever the device answered, and
    the following commands are dispatched. *)
Theorem baud_command_default
        (fopen : string -> option (list Z)) (strtoul : string -> Z)
        (s : session) (rest : list string) (w : world) :
  match rest with
  | [] => True
  | t :: _ => u32 (strtoul t) = 0
  end ->
  let loop := command_loop fopen strtoul in
  (forall a, u32 (strtoul a) = DEFAULT_HIGHSPEED ->
             loop ("baud"%string :: rest) s w =
             loop ("baud"%string :: a :: rest) s w)
  /\ (synced s = true ->
      loop ("baud"%string :: rest) s w =
        loop rest s (snd (imx_set_baud 921600 w))
      /\ exists t, wire (snd (imx_set_baud 921600 w)) =
                     wire w ++ t ++ [SetBaud 921600]).
Proof.
  intros Hrest loop.
  assert (E : forall s' w',
             loop ("baud"%string :: rest) s' w' =
             sync_first s' (fun s'' =>
                              cmd_baud DEFAULT_HIGHSPEED s'' (loop rest)) w').
  { intros s' w'. unfold loop. simpl command_loop.
    unfold sync_first. destruct (negb (synced s')).
    - unfold bind. destruct (imx_sync w') as [r w1].
      destruct (negb (r =? 0)); [reflexivity |].
      destruct rest as [| t rest']; [reflexivity |].
      cbv zeta. rewrite Hrest. reflexivity.
    - destruct rest as [| t rest']; [reflexivity |].
      cbv zeta. rewrite Hrest. reflexivity. }
  split.
  - intros a Ha. rewrite E. unfold loop. simpl command_loop.
    unfold sync_first. destruct (negb (synced s)).
    + unfold bind. destruct (imx_sync w) as [r w1].
      destruct (negb (r =? 0)); [reflexivity |].
      cbv zeta. rewrite Ha. reflexivity.
    + cbv zeta. rewrite Ha. reflexivity.
  - intros Hs. split; [| apply imx_set_baud_ends].
    rewrite E. unfold sync_first. rewrite Hs.
    change (negb true) with false. cbv iota beta.
    unfold cmd_baud, bind. change DEFAULT_HIGHSPEED with 921600.
    destruct (imx_set_baud_ends 921600 w) as [H0 _].
    destruct (imx_set_baud 921600 w) as [r w1]. simpl in H0. subst r.
    reflexivity.
Qed.

Lemma baud_command_default_witness :
  command_loop no_files Libc.strtoul ["baud"%string; "sync"%string]
    (mk_session true 0) (fresh []) =
  command_loop no_files Libc.strtoul
    ["baud"%string; "921600"%string; "sync"%string]
    (mk_session true 0) (fresh []).
Proof.
  destruct (baud_command_default no_files Libc.strtoul (mk_session true 0)
              ["sync"%string] (fresh []) eq_refl) as [H _].
  apply H. reflexivity.
Defined.

Lemma set_register_returns_0 (addr len value : Z) (w : world) :
  fst (imx_set_register addr len value 0 w) = 0 <->
  (len = 8 \/ len = 16 \/ len = 32)
  /\ next_read w = Got4 0x56787856 /\ second_read w = Got4 0x128a8a12.
Proof.
  destruct (Z.eq_dec len 8) as [H8 | H8];
    [| destruct (Z.eq_dec len 16) as [H16 | H16];
       [| destruct (Z.eq_dec len 32) as [H32 | H32]]].
  4: { split.
       - unfold imx_set_register, bind, printf, ret.
         apply Z.eqb_neq in H8, H16, H32. rewrite H8, H16, H32. simpl.
         discriminate.
       - intros [[H | [H | H]] _]; contradiction. }
  all: subst len;
    unfold imx_set_register, bind, printf, write, read4, ret, next_read,
      second_read; simpl;
    (destruct (inbound w) as [| [vb |] rest]; simpl;
     [| destruct rest as [| [vc |] rest']; simpl;
        [| destruct (Z.eqb_spec vb 0x56787856) as [-> | Hb];
           [destruct (Z.eqb_spec vc 0x128a8a12) as [-> | Hc] |]; simpl |] |]);
    split; intros H;
    repeat match goal with
           | H : _ /\ _ |- _ => destruct H
           | H : Got4 _ = Got4 _ |- _ => inversion H; clear H; subst
           end;
    try discriminate; try reflexivity; try congruence;
    try (repeat split; auto; fail).
Qed.

(** X14. The set command on a synced session performs one register write
    with the ignore flag clear: for a width of 8, 16 or 32 the next
    command is dispatched exactly when the device answers 0x56787856
    then 0x128a8a12; in every other case (any other width included) the
    failure is reported, the session is unchanged and the commands that
    follow are never executed. *)
Theorem set_command_contract
        (fopen : string -> option (list Z)) (strtoul : string -> Z)
        (a1 a2 a3 : string) (s : session) (rest : list string) (w : world) :
  synced s = true ->
  let loop := command_loop fopen strtoul in
  let addr := u32 (strtoul a1) in
  let size := u32 (strtoul a2) in
  let value := u32 (strtoul a3) in
  let w1 := snd (imx_set_register addr size value 0 w) in
  let acknowledged :=
    (size = 8 \/ size = 16 \/ size = 32)
    /\ next_read w = Got4 0x56787856 /\ second_read w = Got4 0x128a8a12 in
  (acknowledged ->
   loop ("set"%string :: a1 :: a2 :: a3 :: rest) s w = loop rest s w1)
  /\ (~ acknowledged ->
      loop ("set"%string :: a1 :: a2 :: a3 :: rest) s w =
        (Returned 0, s,
         mk_world (inbound w1) (wire w1)
                  (console w1 ++ [UnableToSetRegister addr size value]))).
Proof.
  intros Hs. cbv zeta.
  set (addr := u32 (strtoul a1)). set (size := u32 (strtoul a2)).
  set (value := u32 (strtoul a3)).
  assert (E : command_loop fopen strtoul
                ("set"%string :: a1 :: a2 :: a3 :: rest) s w =
              (r <- imx_set_register addr size value 0 ;;
               if negb (r =? 0)
               then printf (UnableToSetRegister addr size value) ;; break s
               else command_loop fopen strtoul rest s) w).
  { simpl command_loop. unfold cmd_set, sync_first. rewrite Hs. reflexivity. }
  rewrite E. unfold bind.
  pose proof (set_register_returns_0 addr size value w) as Hcode.
  destruct (imx_set_register addr size value 0 w) as [r w1]. simpl in *.
  split.
  - intros Hack. apply Hcode in Hack. subst r. reflexivity.
  - intros Hnack.
    destruct (Z.eqb_spec r 0) as [-> | Hne];
      [exfalso; apply Hnack; apply Hcode; reflexivity | reflexivity].
Qed.

Lemma set_command_contract_witness :
  command_loop no_files Libc.strtoul
    ["set"%string; "0x10000000"%string; "24"%string; "1"%string;
     "sync"%string]
    (mk_session true 0) (fresh [Got4 0x56787856; Got4 0x128a8a12]) =
  (Returned 0, mk_session true 0,
   mk_world [Got4 0x56787856; Got4 0x128a8a12] []
     [WritingRegister 1 24 0x10000000; IllegalRegisterSize;
      UnableToSetRegister 0x10000000 24 1]).
Proof.
  destruct (set_command_contract no_files Libc.strtoul
              "0x10000000" "24" "1" (mk_session true 0) ["sync"%string]
              (fresh [Got4 0x56787856; Got4 0x128a8a12]) eq_refl)
    as [_ H].
  rewrite H; [reflexivity |].
  intros [[Hw | [Hw | Hw]] _]; vm_compute in Hw; discriminate Hw.
Defined.

(** ** The terminal's receive handler *)

(** X15. One invocation of [term_recv] echoes, in order and unchanged,
    exactly the bytes that arrive before the first read that delivers
    none, and consumes that read too: it stops silently when that read
    found nothing, and after printing the read-error line, once, when
    it failed. Nothing after that read is consumed; if every pending
    read delivers a byte, all of them are echoed. *)
Theorem term_recv_drains (pending : list byte_read) :
  let bytes := leading_bytes pending in
  let n := List.length bytes in
  term_recv pending =
    (map Echoed bytes
     ++ match nth n pending NoData with
        | ReadFailed => [ReadErrorReported]
        | _ => []
        end,
     skipn (S n) pending)
  /\ (n = List.length pending ->
      term_recv pending = (map Echoed bytes, []))
  /\ (forall before after,
        pending = map GotByte before ++ NoData :: after ->
        term_recv pending = (map Echoed before, after))
  /\ (forall before after,
        pending = map GotByte before ++ ReadFailed :: after ->
        term_recv pending =
          (map Echoed before ++ [ReadErrorReported], after)).
Proof.
  cbv zeta.
  assert (Hmain : forall l,
             term_recv l =
               (map Echoed (leading_bytes l)
                ++ match nth (List.length (leading_bytes l)) l NoData with
                   | ReadFailed => [ReadErrorReported]
                   | _ => []
                   end,
                skipn (S (List.length (leading_bytes l))) l)).
  { induction l as [| [b | |] l IH]; try reflexivity.
    simpl term_recv. rewrite IH. reflexivity. }
  assert (Hlead : forall before tail,
             match tail with GotByte _ :: _ => False | _ => True end ->
             leading_bytes (map GotByte before ++ tail) = before).
  { induction before as [| b before IH]; intros tail Htail; simpl.
    - destruct tail as [| [b | |] tail]; try reflexivity. contradiction.
    - rewrite IH by assumption. reflexivity. }
  split; [apply Hmain |]. split; [| split].
  - intros Hn. rewrite Hmain. rewrite Hn.
    rewrite nth_overflow by lia.
    rewrite skipn_all2 by lia. rewrite app_nil_r. reflexivity.
  - intros before after ->. rewrite Hmain.
    rewrite (Hlead before (NoData :: after) I).
    rewrite app_nth2; rewrite length_map; [| lia].
    rewrite Nat.sub_diag. simpl nth. rewrite app_nil_r.
    f_equal.
    replace (S (List.length before))
      with (List.length (map GotByte before) + 1)%nat
      by (rewrite length_map; lia).
    rewrite skipn_app, Nat.add_comm, Nat.add_sub.
    rewrite skipn_all2 by lia. reflexivity.
  - intros before after ->. rewrite Hmain.
    rewrite (Hlead before (ReadFailed :: after) I).
    rewrite app_nth2; rewrite length_map; [| lia].
    rewrite Nat.sub_diag. simpl nth.
    f_equal.
    replace (S (List.length before))
      with (List.length (map GotByte before) + 1)%nat
      by (rewrite length_map; lia).
    rewrite skipn_app, Nat.add_comm, Nat.add_sub.
    rewrite skipn_all2 by lia. reflexivity.
Qed.

Lemma term_recv_drains_witness :
  term_recv [GotByte 104; GotByte 105; ReadFailed; GotByte 33] =
    ([Echoed 104; Echoed 105; ReadErrorReported], [GotByte 33]).
Proof.
  destruct (term_recv_drains
              [GotByte 104; GotByte 105; ReadFailed; GotByte 33])
    as (_ & _ & _ & H).
  apply (H [104; 105] [GotByte 33]). reflexivity.
Defined.

(** ** What the device reads off the wire *)

Lemma byte_at_div (z k : Z) :
  0 <= k -> byte_at z k = (z / 2 ^ (8 * k)) mod 256.
Proof.
  intros Hk. unfold byte_at. change 0xff with (Z.ones 8).
  rewrite Z.land_ones by lia. rewrite Z.shiftr_div_pow2 by lia.
  reflexivity.
Qed.

(** X16. Read most significant byte first, the four bytes that a swapped
    field occupies in the packet spell the original 32-bit value: the
    address and data of a register write, the address and length of a
    download header and the address of a run packet reach the device
    unchanged, at fixed offsets 2, 7 and 11 of the sixteen bytes. *)
Theorem wire_fields_decode (addr len value i to_write : Z) :
  0 <= addr < 2 ^ 32 ->
  0 <= value < 2 ^ 32 ->
  0 <= to_write < 2 ^ 32 ->
  let field (p : imx_packet) (at_ : nat) :=
    be_word (firstn 4 (skipn at_ (packet_bytes p))) in
  (forall d, 0 <= d < 2 ^ 32 -> be_word (mem32 (SWAPDWORD d)) = d)
  /\ field (sreg_packet addr len value) 2%nat = addr
  /\ field (sreg_packet addr len value) 7%nat = 0
  /\ field (sreg_packet addr len value) 11%nat = value
  /\ field (dwnl_packet addr i to_write) 2%nat = u32 (addr + i)
  /\ field (dwnl_packet addr i to_write) 7%nat = to_write
  /\ field (run_packet addr) 2%nat = addr.
Proof.
  intros Haddr Hvalue Hto field.
  assert (Hword : forall d, 0 <= d < 2 ^ 32 ->
                            be_word (mem32 (SWAPDWORD d)) = d).
  { intros d Hd. rewrite mem32_SWAPDWORD. unfold be32, be_word, fold_left.
    rewrite !byte_at_div by lia.
    change (2 ^ (8 * 3)) with 16777216. change (2 ^ (8 * 2)) with 65536.
    change (2 ^ (8 * 1)) with 256. change (2 ^ (8 * 0)) with 1.
    change (2 ^ 32) with 4294967296 in Hd.
    rewrite Z.div_1_r.
    Z.div_mod_to_equations. lia. }
  split; [exact Hword |].
  unfold field, packet_bytes, sreg_packet, dwnl_packet, run_packet.
  simpl pckt_address. simpl pckt_length. simpl pckt_data.
  simpl pckt_header. simpl pckt_type. simpl pckt_end.
  unfold mem16. simpl skipn. simpl firstn.
  repeat split;
    match goal with
    | |- be_word ?l = _ =>
        match l with
        | context [SWAPDWORD ?d] =>
            change l with (mem32 (SWAPDWORD d)); apply Hword
        end
    end; try assumption; try apply u32_range; lia.
Qed.

Lemma wire_fields_decode_witness :
  be_word (firstn 4 (skipn 2 (packet_bytes (run_packet 0xC0000000)))) =
    0xC0000000
  /\ firstn 4 (skipn 2 (packet_bytes (run_packet 0xC0000000))) =
       [0xC0; 0; 0; 0].
Proof.
  destruct (wire_fields_decode 0xC0000000 32 1 0 4096)
    as (_ & _ & _ & _ & _ & _ & H); try lia.
  split; [exact H | reflexivity].
Defined.
